(** * Electronic door lock: keypad scanner and access-control loop

    A shallow embedding of [Keypad.cpp] (matrix scan and edge-triggered
    key reporting) and of [main.cpp] (password buffer, failed-attempt
    counter, door-open and lockout timers, the polling loop), followed by
    the properties of the controller.

    Conventions.
    - [char] is [ascii]; ['\0'] is [zero].
    - [std::string] is [string]; [length()] is [String.length].
    - [int] is [Z], with the 32-bit wrap-around written out where the
      program computes with one: the counter increment ([int_succ]), the
      countdown subtractions ([int_sub]) and [Timer::read_ms], which
      converts a 64-bit microsecond count to [int].
    - Time is a microsecond clock carried in the state.  [wait_us] and
      [ThisThread::sleep_for] advance it by their argument; whatever else
      an iteration of the loop costs is the slack [dt] of that iteration,
      spent before its timer checks.
    - The LCD is an output device: it is modelled by the log of the
      commands sent to it.  The commands are given no duration of their
      own, so a timer that is read after LCD commands within one handler
      is read too early by the time they take.  The only such reads are
      those of the countdown texts, and no property below fixes the
      number a countdown shows. *)

From Stdlib Require Import ZArith List Bool String Ascii Lia.
From Stdlib Require Import DecimalString.
Import ListNotations.

Local Open Scope Z_scope.
Local Open Scope string_scope.

(* ================================================================== *)
(** * The Mbed primitives the program uses *)
(* ================================================================== *)

Module Mbed.

(** [Timer]: [_running], [_start] (ticker value at the last start or
    reset) and [_time] (microseconds accumulated before that). *)
Record Timer := mkTimer {
  _running : bool;
  _start   : Z;
  _time    : Z
}.

Definition two64 : Z := 2 ^ 64.
Definition two32 : Z := 2 ^ 32.
Definition two31 : Z := 2 ^ 31.

(** Conversion of a wide count to a 32-bit [int]. *)
Definition to_int (z : Z) : Z := (z + two31) mod two32 - two31.

(** [Timer::slicetime] *)
Definition slicetime (now : Z) (t : Timer) : Z :=
  if _running t then (now - _start t) mod two64 else 0.

(** [Timer::read_high_resolution_us] *)
Definition read_us (now : Z) (t : Timer) : Z :=
  (_time t + slicetime now t) mod two64.

(** [Timer::read_ms] *)
Definition read_ms (now : Z) (t : Timer) : Z :=
  to_int (read_us now t / 1000).

(** [Timer::start]: no effect on a running timer. *)
Definition start (now : Z) (t : Timer) : Timer :=
  if _running t then t
  else {| _running := true; _start := now; _time := _time t |}.

(** [Timer::stop] *)
Definition stop (now : Z) (t : Timer) : Timer :=
  {| _running := false;
     _start := _start t;
     _time := (_time t + slicetime now t) mod two64 |}.

(** [Timer::reset] *)
Definition reset (now : Z) (t : Timer) : Timer :=
  {| _running := _running t; _start := now; _time := 0 |}.

(** A freshly constructed timer. *)
Definition fresh : Timer :=
  {| _running := false; _start := 0; _time := 0 |}.

End Mbed.

(* ================================================================== *)
(** * config.h *)
(* ================================================================== *)

Definition PASSWORD : string := "1234".
Definition MAX_PASSWORD_LENGTH : nat := 8.
Definition ROWS : Z := 4.
Definition COLS : Z := 4.
Definition OPEN_TIME_MS : Z := 10000.
Definition LED_FLASH_PERIOD_MS : Z := 500.
Definition LOCKOUT_TIME_MS : Z := 30000.
Definition DEBOUNCE_TIME_MS : Z := 50.
Definition MAX_FAILED_ATTEMPTS : Z := 3.

(* ================================================================== *)
(** * Keypad.cpp *)
(* ================================================================== *)

(** The physical switch matrix at one instant: [sw row col] holds when
    the key at that crossing is held down. *)
Definition Switches := nat -> nat -> bool.

Module Keypad.

(** Object state.  [_rowPins] holds the level last written to each of
    the [_rows] row outputs ([true] is HIGH). *)
Record t := mk {
  _keys          : list (list ascii);
  _rowPins       : list bool;
  _rows          : Z;
  _cols          : Z;
  _lastKey       : ascii;
  _debounceTimer : Mbed.Timer
}.

(** [_keys[row][col]] *)
Definition key_at (keys : list (list ascii)) (row col : nat) : ascii :=
  nth col (nth row keys []) zero.

(** [_colPins[col]->read()]: the column is pulled up and reads LOW
    exactly when a closed switch ties it to a row that is driven LOW. *)
Definition col_read (sw : Switches) (pins : list bool) (col : nat) : bool :=
  negb (existsb (fun r => negb (nth r pins true) && sw r col)
                (seq 0 (List.length pins))).

(** [for (i = 0; i < _rows; i++) _rowPins[i]->write(i == row ? 0 : 1);] *)
Definition drive_row (rows : Z) (row : nat) : list bool :=
  map (fun i => negb (Nat.eqb i row)) (seq 0 (Z.to_nat rows)).

(** [for (i = 0; i < _rows; i++) _rowPins[i]->write(1);] *)
Definition all_high (rows : Z) : list bool :=
  map (fun _ => true) (seq 0 (Z.to_nat rows)).

(** The inner loop over the columns of one driven row. *)
Fixpoint scan_cols (sw : Switches) (pins : list bool)
         (keys : list (list ascii)) (row : nat) (cols : list nat)
  : option ascii :=
  match cols with
  | [] => None
  | col :: rest =>
      if negb (col_read sw pins col)
      then Some (key_at keys row col)
      else scan_cols sw pins keys row rest
  end.

(** The outer loop over the rows; each row costs [wait_us(10)]. *)
Fixpoint scan_rows (sw : Switches) (kp : t) (rows : list nat) (now : Z)
  : ascii * Z :=
  match rows with
  | [] => (zero, now)
  | row :: rest =>
      let pins := drive_row (_rows kp) row in
      let now := now + 10 in
      match scan_cols sw pins (_keys kp) row (seq 0 (Z.to_nat (_cols kp))) with
      | Some k => (k, now)
      | None => scan_rows sw kp rest now
      end
  end.

Definition set_rowPins (p : list bool) (kp : t) : t :=
  {| _keys := _keys kp; _rowPins := p; _rows := _rows kp; _cols := _cols kp;
     _lastKey := _lastKey kp; _debounceTimer := _debounceTimer kp |}.

Definition set_lastKey (k : ascii) (kp : t) : t :=
  {| _keys := _keys kp; _rowPins := _rowPins kp; _rows := _rows kp;
     _cols := _cols kp; _lastKey := k; _debounceTimer := _debounceTimer kp |}.

Definition set_debounceTimer (d : Mbed.Timer) (kp : t) : t :=
  {| _keys := _keys kp; _rowPins := _rowPins kp; _rows := _rows kp;
     _cols := _cols kp; _lastKey := _lastKey kp; _debounceTimer := d |}.

(** [Keypad::scanKeys]: the symbol, the clock after the scan, and the
    object with every row restored to HIGH (on both return paths). *)
Definition scanKeys (sw : Switches) (now : Z) (kp : t) : ascii * Z * t :=
  let '(k, now') := scan_rows sw kp (seq 0 (Z.to_nat (_rows kp))) now in
  (k, now', set_rowPins (all_high (_rows kp)) kp).

(** [Keypad::getKey] *)
Definition getKey (sw : Switches) (now : Z) (kp : t) : ascii * Z * t :=
  let '(key, now, kp) := scanKeys sw now kp in
  if negb (Ascii.eqb key zero) then
    if negb (Ascii.eqb key (_lastKey kp)) then
      let kp := set_lastKey key kp in
      let kp := set_debounceTimer (Mbed.reset now (_debounceTimer kp)) kp in
      (key, now, kp)
    else
      if Mbed.read_ms now (_debounceTimer kp) >? DEBOUNCE_TIME_MS
      then (zero, now, kp)
      else (zero, now, kp)
  else
    (zero, now, set_lastKey zero kp).

(** The constructor: all rows HIGH, no key reported yet, debounce timer
    started. *)
Definition create (keys : list (list ascii)) (rows cols : Z) (now : Z) : t :=
  {| _keys := keys; _rowPins := all_high rows; _rows := rows; _cols := cols;
     _lastKey := zero;
     _debounceTimer := Mbed.start now Mbed.fresh |}.

(** The symbol a scan yields; it depends on the switches and on the
    geometry only. *)
Definition scanned (sw : Switches) (kp : t) : ascii :=
  fst (scan_rows sw kp (seq 0 (Z.to_nat (_rows kp))) 0).

(** Successive [getKey] calls, one per element of [inputs]; each input
    is the switch matrix at that call and the time elapsed since the
    previous one.  Returns the symbols reported, in order. *)
Fixpoint poll (inputs : list (Switches * Z)) (now : Z) (kp : t)
  : list ascii * Z * t :=
  match inputs with
  | [] => ([], now, kp)
  | (sw, dt) :: rest =>
      let '(k, now1, kp1) := getKey sw (now + dt) kp in
      let '(ks, now2, kp2) := poll rest now1 kp1 in
      (k :: ks, now2, kp2)
  end.

End Keypad.

(* ================================================================== *)
(** * main.cpp: the program state *)
(* ================================================================== *)

(** Commands sent to the [TextLCD] object. *)
Inductive LcdOp :=
| Cls
| Printf (text : string)
| Locate (col row : Z).

(** The clock, the output devices, the keypad object and the globals of
    [main.cpp]; [fastFlash] is the function-local static of
    [handleSpecialKeys]. *)
Record System := mkSystem {
  clock          : Z;
  lcd            : list LcdOp;
  led            : bool;
  ledTicker      : option Z;
  lockControl    : bool;
  keypad         : Keypad.t;
  inputPassword  : string;
  failedAttempts : Z;
  isDoorOpen     : bool;
  isLockedOut    : bool;
  doorTimer      : Mbed.Timer;
  lockoutTimer   : Mbed.Timer;
  fastFlash      : bool
}.

Definition set_clock (v : Z) (s : System) : System :=
  {| clock := v; lcd := lcd s; led := led s; ledTicker := ledTicker s;
     lockControl := lockControl s; keypad := keypad s;
     inputPassword := inputPassword s; failedAttempts := failedAttempts s;
     isDoorOpen := isDoorOpen s; isLockedOut := isLockedOut s;
     doorTimer := doorTimer s; lockoutTimer := lockoutTimer s;
     fastFlash := fastFlash s |}.

Definition set_lcd (v : list LcdOp) (s : System) : System :=
  {| clock := clock s; lcd := v; led := led s; ledTicker := ledTicker s;
     lockControl := lockControl s; keypad := keypad s;
     inputPassword := inputPassword s; failedAttempts := failedAttempts s;
     isDoorOpen := isDoorOpen s; isLockedOut := isLockedOut s;
     doorTimer := doorTimer s; lockoutTimer := lockoutTimer s;
     fastFlash := fastFlash s |}.

Definition set_led (v : bool) (s : System) : System :=
  {| clock := clock s; lcd := lcd s; led := v; ledTicker := ledTicker s;
     lockControl := lockControl s; keypad := keypad s;
     inputPassword := inputPassword s; failedAttempts := failedAttempts s;
     isDoorOpen := isDoorOpen s; isLockedOut := isLockedOut s;
     doorTimer := doorTimer s; lockoutTimer := lockoutTimer s;
     fastFlash := fastFlash s |}.

Definition set_ledTicker (v : option Z) (s : System) : System :=
  {| clock := clock s; lcd := lcd s; led := led s; ledTicker := v;
     lockControl := lockControl s; keypad := keypad s;
     inputPassword := inputPassword s; failedAttempts := failedAttempts s;
     isDoorOpen := isDoorOpen s; isLockedOut := isLockedOut s;
     doorTimer := doorTimer s; lockoutTimer := lockoutTimer s;
     fastFlash := fastFlash s |}.

Definition set_lockControl (v : bool) (s : System) : System :=
  {| clock := clock s; lcd := lcd s; led := led s;
     ledTicker := ledTicker s; lockControl := v; keypad := keypad s;
     inputPassword := inputPassword s; failedAttempts := failedAttempts s;
     isDoorOpen := isDoorOpen s; isLockedOut := isLockedOut s;
     doorTimer := doorTimer s; lockoutTimer := lockoutTimer s;
     fastFlash := fastFlash s |}.

Definition set_keypad (v : Keypad.t) (s : System) : System :=
  {| clock := clock s; lcd := lcd s; led := led s;
     ledTicker := ledTicker s; lockControl := lockControl s; keypad := v;
     inputPassword := inputPassword s; failedAttempts := failedAttempts s;
     isDoorOpen := isDoorOpen s; isLockedOut := isLockedOut s;
     doorTimer := doorTimer s; lockoutTimer := lockoutTimer s;
     fastFlash := fastFlash s |}.

Definition set_inputPassword (v : string) (s : System) : System :=
  {| clock := clock s; lcd := lcd s; led := led s;
     ledTicker := ledTicker s; lockControl := lockControl s;
     keypad := keypad s; inputPassword := v;
     failedAttempts := failedAttempts s; isDoorOpen := isDoorOpen s;
     isLockedOut := isLockedOut s; doorTimer := doorTimer s;
     lockoutTimer := lockoutTimer s; fastFlash := fastFlash s |}.

Definition set_failedAttempts (v : Z) (s : System) : System :=
  {| clock := clock s; lcd := lcd s; led := led s;
     ledTicker := ledTicker s; lockControl := lockControl s;
     keypad := keypad s; inputPassword := inputPassword s;
     failedAttempts := v; isDoorOpen := isDoorOpen s;
     isLockedOut := isLockedOut s; doorTimer := doorTimer s;
     lockoutTimer := lockoutTimer s; fastFlash := fastFlash s |}.

Definition set_isDoorOpen (v : bool) (s : System) : System :=
  {| clock := clock s; lcd := lcd s; led := led s;
     ledTicker := ledTicker s; lockControl := lockControl s;
     keypad := keypad s; inputPassword := inputPassword s;
     failedAttempts := failedAttempts s; isDoorOpen := v;
     isLockedOut := isLockedOut s; doorTimer := doorTimer s;
     lockoutTimer := lockoutTimer s; fastFlash := fastFlash s |}.

Definition set_isLockedOut (v : bool) (s : System) : System :=
  {| clock := clock s; lcd := lcd s; led := led s;
     ledTicker := ledTicker s; lockControl := lockControl s;
     keypad := keypad s; inputPassword := inputPassword s;
     failedAttempts := failedAttempts s; isDoorOpen := isDoorOpen s;
     isLockedOut := v; doorTimer := doorTimer s;
     lockoutTimer := lockoutTimer s; fastFlash := fastFlash s |}.

Definition set_doorTimer (v : Mbed.Timer) (s : System) : System :=
  {| clock := clock s; lcd := lcd s; led := led s;
     ledTicker := ledTicker s; lockControl := lockControl s;
     keypad := keypad s; inputPassword := inputPassword s;
     failedAttempts := failedAttempts s; isDoorOpen := isDoorOpen s;
     isLockedOut := isLockedOut s; doorTimer := v;
     lockoutTimer := lockoutTimer s; fastFlash := fastFlash s |}.

Definition set_lockoutTimer (v : Mbed.Timer) (s : System) : System :=
  {| clock := clock s; lcd := lcd s; led := led s;
     ledTicker := ledTicker s; lockControl := lockControl s;
     keypad := keypad s; inputPassword := inputPassword s;
     failedAttempts := failedAttempts s; isDoorOpen := isDoorOpen s;
     isLockedOut := isLockedOut s; doorTimer := doorTimer s;
     lockoutTimer := v; fastFlash := fastFlash s |}.

Definition set_fastFlash (v : bool) (s : System) : System :=
  {| clock := clock s; lcd := lcd s; led := led s;
     ledTicker := ledTicker s; lockControl := lockControl s;
     keypad := keypad s; inputPassword := inputPassword s;
     failedAttempts := failedAttempts s; isDoorOpen := isDoorOpen s;
     isLockedOut := isLockedOut s; doorTimer := doorTimer s;
     lockoutTimer := lockoutTimer s; fastFlash := v |}.

(** ** Device and library calls *)

(** The three LCD commands: each is appended to the log; the clock is
    left alone. *)

Definition lcd_cls (s : System) : System := set_lcd (lcd s ++ [Cls]) s.

Definition lcd_printf (text : string) (s : System) : System :=
  set_lcd (lcd s ++ [Printf text]) s.

Definition lcd_locate (col row : Z) (s : System) : System :=
  set_lcd (lcd s ++ [Locate col row]) s.

(** The text [printf] produces for [%d]. *)
Definition dec (z : Z) : string := NilZero.string_of_int (Z.to_int z).

(** [i++] on an [int]: the successor, [INT_MAX] wrapping to [INT_MIN]. *)
Definition int_succ (i : Z) : Z :=
  if (i =? 2147483647)%Z then -2147483648 else i + 1.

(** [a - b] on [int]s. *)
Definition int_sub (a b : Z) : Z := Mbed.to_int (a - b).

(** [ThisThread::sleep_for(ms)] *)
Definition sleep_for (ms : Z) (s : System) : System :=
  set_clock (clock s + 1000 * ms) s.

(** [keypad.getKey()] on the program state. *)
Definition keypad_getKey (sw : Switches) (s : System) : ascii * System :=
  let '(k, now, kp) := Keypad.getKey sw (clock s) (keypad s) in
  (k, set_keypad kp (set_clock now s)).

(** The keypad layout of [main.cpp]. *)
Definition keys : list (list ascii) :=
  [ ["1"; "2"; "3"; "A"];
    ["4"; "5"; "6"; "B"];
    ["7"; "8"; "9"; "C"];
    ["*"; "0"; "#"; "D"] ]%char.

(* ================================================================== *)
(** * main.cpp: the functions *)
(* ================================================================== *)

(** [ledFlashISR] *)
Definition ledFlashISR (s : System) : System :=
  if isDoorOpen s then set_led (negb (led s)) s else s.

(** [openLock] (relay build) *)
Definition openLock (s : System) : System :=
  let s := set_isDoorOpen true s in
  let s := set_lockControl true s in
  let s := set_ledTicker (Some 250) s in
  let s := set_doorTimer (Mbed.reset (clock s) (doorTimer s)) s in
  set_doorTimer (Mbed.start (clock s) (doorTimer s)) s.

(** [closeLock] (relay build) *)
Definition closeLock (s : System) : System :=
  let s := set_isDoorOpen false s in
  let s := set_lockControl false s in
  let s := set_ledTicker None s in
  let s := set_led true s in
  set_doorTimer (Mbed.stop (clock s) (doorTimer s)) s.

(** [updateLCD] *)
Definition updateLCD (s : System) : System :=
  let s := lcd_cls s in
  if isLockedOut s then
    let s := lcd_printf "LOCKED OUT!" s in
    let s := lcd_locate 0 1 s in
    let remaining :=
      Z.quot (int_sub LOCKOUT_TIME_MS
                      (Mbed.read_ms (clock s) (lockoutTimer s))) 1000 in
    lcd_printf ("Wait " ++ dec remaining ++ "s") s
  else if isDoorOpen s then
    let s := lcd_printf "Door Open" s in
    let s := lcd_locate 0 1 s in
    let remaining :=
      Z.quot (int_sub OPEN_TIME_MS
                      (Mbed.read_ms (clock s) (doorTimer s))) 1000 in
    lcd_printf ("Closing in " ++ dec remaining ++ "s") s
  else
    let s := lcd_printf "Enter Password:" s in
    let s := lcd_locate 0 1 s in
    Nat.iter (String.length (inputPassword s)) (lcd_printf "*") s.

(** [checkPassword] *)
Definition checkPassword (s : System) : System :=
  if isLockedOut s then
    let s := lcd_cls s in
    let s := lcd_printf "LOCKED OUT!" s in
    let s := lcd_locate 0 1 s in
    let remaining :=
      Z.quot (int_sub LOCKOUT_TIME_MS
                      (Mbed.read_ms (clock s) (lockoutTimer s))) 1000 in
    lcd_printf ("Wait " ++ dec remaining ++ "s") s
  else
    let s :=
      if String.eqb (inputPassword s) PASSWORD then
        let s := lcd_cls s in
        let s := lcd_printf "Access Granted!" s in
        let s := lcd_locate 0 1 s in
        let s := lcd_printf "Door Opening..." s in
        let s := set_failedAttempts 0 s in
        openLock s
      else
        let s := set_failedAttempts (int_succ (failedAttempts s)) s in
        let s := lcd_cls s in
        let s := lcd_printf "Wrong Password!" s in
        let s := lcd_locate 0 1 s in
        let s := lcd_printf ("Attempts: " ++ dec (failedAttempts s) ++ "/"
                             ++ dec MAX_FAILED_ATTEMPTS) s in
        if failedAttempts s >=? MAX_FAILED_ATTEMPTS then
          let s := sleep_for 2000 s in
          let s := lcd_cls s in
          let s := lcd_printf "TOO MANY TRIES!" s in
          let s := lcd_locate 0 1 s in
          let s := lcd_printf "Locked 30s" s in
          let s := set_isLockedOut true s in
          let s := set_lockoutTimer (Mbed.reset (clock s) (lockoutTimer s)) s in
          set_lockoutTimer (Mbed.start (clock s) (lockoutTimer s)) s
        else s
    in
    let s := set_inputPassword "" s in
    let s := sleep_for 2000 s in
    updateLCD s.

(** [resetSystem] *)
Definition resetSystem (s : System) : System :=
  let s := set_isLockedOut false s in
  let s := set_failedAttempts 0 s in
  let s := set_inputPassword "" s in
  let s := set_lockoutTimer (Mbed.stop (clock s) (lockoutTimer s)) s in
  updateLCD s.

(** [handleSpecialKeys] *)
Definition handleSpecialKeys (key : ascii) (s : System) : System :=
  let s :=
    if Ascii.eqb key "A" then
      let s := lcd_cls s in
      let s := lcd_printf "Door Lock v1.0" s in
      let s := lcd_locate 0 1 s in
      lcd_printf ("Attempts: " ++ dec (failedAttempts s)) s
    else if Ascii.eqb key "B" then
      let s := set_fastFlash (negb (fastFlash s)) s in
      let s :=
        if fastFlash s then
          let s := set_ledTicker (Some 100) s in
          let s := lcd_cls s in
          lcd_printf "Fast Flash ON" s
        else
          let s := set_ledTicker (Some 250) s in
          let s := lcd_cls s in
          lcd_printf "Normal Flash" s
      in
      sleep_for 2000 s
    else if Ascii.eqb key "C" then
      if failedAttempts s >? 0 then
        let s := set_failedAttempts 0 s in
        let s := lcd_cls s in
        let s := lcd_printf "Attempts Reset" s in
        sleep_for 2000 s
      else
        let s := lcd_cls s in
        let s := lcd_printf "No Attempts" s in
        sleep_for 2000 s
    else if Ascii.eqb key "D" then
      let s := lcd_cls s in
      let s :=
        if isDoorOpen s then
          let s := lcd_printf "Door: OPEN" s in
          let remaining :=
            Z.quot (int_sub OPEN_TIME_MS
                            (Mbed.read_ms (clock s) (doorTimer s))) 1000 in
          let s := lcd_locate 0 1 s in
          lcd_printf ("Closes in " ++ dec remaining ++ "s") s
        else if isLockedOut s then
          let s := lcd_printf "Door: LOCKED" s in
          let remaining :=
            Z.quot (int_sub LOCKOUT_TIME_MS
                            (Mbed.read_ms (clock s) (lockoutTimer s))) 1000 in
          let s := lcd_locate 0 1 s in
          lcd_printf ("Unlock in " ++ dec remaining ++ "s") s
        else
          let s := lcd_printf "Door: CLOSED" s in
          let s := lcd_locate 0 1 s in
          lcd_printf "Ready" s
      in
      sleep_for 3000 s
    else s
  in
  updateLCD s.

(** [key >= '0' && key <= '9'] *)
Definition is_digit (key : ascii) : bool :=
  (nat_of_ascii "0" <=? nat_of_ascii key)%nat
  && (nat_of_ascii key <=? nat_of_ascii "9")%nat.

(** The key dispatch of the main loop: the [if (key && !isDoorOpen)]
    statement that follows [keypad.getKey()]. *)
Definition handle_key (key : ascii) (s : System) : System :=
  if negb (Ascii.eqb key zero) && negb (isDoorOpen s) then
    if Ascii.eqb key "#" then
      if (0 <? String.length (inputPassword s))%nat then
        checkPassword s
      else
        let s := lcd_cls s in
        let s := lcd_printf "Enter Password" s in
        let s := lcd_locate 0 1 s in
        let s := lcd_printf "First!" s in
        let s := sleep_for 2000 s in
        updateLCD s
    else if Ascii.eqb key "*" then
      if (0 <? String.length (inputPassword s))%nat then
        let s := set_inputPassword "" s in
        updateLCD s
      else
        let s := lcd_cls s in
        let s := lcd_printf "Nothing to Clear" s in
        let s := sleep_for 1500 s in
        updateLCD s
    else if is_digit key then
      if (String.length (inputPassword s) <? MAX_PASSWORD_LENGTH)%nat then
        let s := set_inputPassword (inputPassword s ++ String key "") s in
        updateLCD s
      else s
    else if Ascii.eqb key "A" || Ascii.eqb key "B"
            || Ascii.eqb key "C" || Ascii.eqb key "D" then
      handleSpecialKeys key s
    else s
  else s.

(** The three timer-driven statements that open each loop iteration:
    lockout expiry, door auto-close, and the countdown refresh. *)
Definition check_lockout (s : System) : System :=
  if isLockedOut s
     && (Mbed.read_ms (clock s) (lockoutTimer s) >=? LOCKOUT_TIME_MS)
  then resetSystem s else s.

Definition check_autoclose (s : System) : System :=
  if isDoorOpen s
     && (Mbed.read_ms (clock s) (doorTimer s) >=? OPEN_TIME_MS)
  then updateLCD (closeLock s) else s.

Definition refresh_countdown (s : System) : System :=
  if isDoorOpen s then updateLCD s else s.

Definition timer_checks (s : System) : System :=
  let s := check_lockout s in
  let s := check_autoclose s in
  refresh_countdown s.

(** One iteration of [while (true)].  [sw] is the switch matrix seen by
    this iteration's scan; [dt] is the time, in microseconds, that passed
    since the previous iteration ended beyond its explicit sleeps. *)
Definition loop_body (sw : Switches) (dt : N) (s : System) : System :=
  let s := set_clock (clock s + Z.of_N dt) s in
  let s := timer_checks s in
  let '(key, s) := keypad_getKey sw s in
  let s := handle_key key s in
  sleep_for 100 s.

(** The state after static initialisation of the globals. *)
Definition power_on : System :=
  {| clock := 0; lcd := []; led := false; ledTicker := None;
     lockControl := false;
     keypad := Keypad.create keys ROWS COLS 0;
     inputPassword := ""; failedAttempts := 0;
     isDoorOpen := false; isLockedOut := false;
     doorTimer := Mbed.fresh; lockoutTimer := Mbed.fresh;
     fastFlash := false |}.

(** [main] up to the loop. *)
Definition main_init (s : System) : System :=
  let s := lcd_cls s in
  let s := lcd_printf "Door Lock v1.0" s in
  let s := lcd_locate 0 1 s in
  let s := lcd_printf "Initializing..." s in
  let s := sleep_for 2000 s in
  let s := closeLock s in
  let s := lcd_cls s in
  let s := lcd_printf "System Ready!" s in
  let s := sleep_for 1000 s in
  let s := updateLCD s in
  let s := set_doorTimer (Mbed.start (clock s) (doorTimer s)) s in
  set_lockoutTimer (Mbed.start (clock s) (lockoutTimer s)) s.

Definition boot : System := main_init power_on.

(** What can happen once the loop runs: an iteration, or the LED ticker
    firing between two iterations. *)
Inductive Event :=
| Iteration (sw : Switches) (dt : N)
| LedTick.

Definition step (e : Event) (s : System) : System :=
  match e with
  | Iteration sw dt => loop_body sw dt s
  | LedTick => ledFlashISR s
  end.

Definition run (es : list Event) (s : System) : System :=
  fold_left (fun s e => step e s) es s.

(** A state the running program can be in. *)
Definition reachable (s : System) : Prop :=
  exists es, s = run es boot.

(** A switch matrix with no key held, and one with a single key held. *)
Definition no_key : Switches := fun _ _ => false.

Definition hold (row col : nat) : Switches :=
  fun r c => Nat.eqb r row && Nat.eqb c col.

(** A matrix with three keys held at once: "6", "B" and "7". *)
Definition three_keys : Switches :=
  fun r c => (Nat.eqb r 1 && Nat.eqb c 2) || (Nat.eqb r 1 && Nat.eqb c 3)
             || (Nat.eqb r 2 && Nat.eqb c 0).

(** Objects that differ only in pin levels, last key and debounce timer
    scan alike. *)
Definition same_geometry (kp kp' : Keypad.t) : Prop :=
  Keypad._keys kp' = Keypad._keys kp
  /\ Keypad._rows kp' = Keypad._rows kp
  /\ Keypad._cols kp' = Keypad._cols kp.

(* ================================================================== *)
(** * Vocabulary for the properties *)
(* ================================================================== *)

(** The state with the clock and the display log blanked: two states
    with the same [control] differ in nothing else. *)
Definition control (s : System) : System := set_lcd [] (set_clock 0 s).

(** The symbol that the [keypad.getKey()] call of an iteration returns. *)
Definition delivered (sw : Switches) (dt : N) (s : System) : ascii :=
  fst (keypad_getKey sw (timer_checks (set_clock (clock s + Z.of_N dt) s))).

(** The controller is locked out and its lockout timer has been running
    from zero since clock value [t0]. *)
Definition locked_since (t0 : Z) (s : System) : Prop :=
  isLockedOut s = true
  /\ lockoutTimer s
     = {| Mbed._running := true; Mbed._start := t0; Mbed._time := 0 |}
  /\ t0 <= clock s.

(** Lockout duration in clock units. *)
Definition LOCKOUT_TIME_US : Z := LOCKOUT_TIME_MS * 1000.

(** Pressing and releasing one key: an iteration that sees it held and
    an iteration that sees it released. *)
Definition press (row col : nat) : list Event :=
  [Iteration (hold row col) 0; Iteration no_key 0].

(** Typing [9 #] three times, and typing [1 2 3 4 #]. *)
Definition three_wrong : list Event :=
  (press 2 2 ++ press 3 2 ++ press 2 2 ++ press 3 2
   ++ press 2 2 ++ press 3 2)%list.

Definition right_code : list Event :=
  (press 0 0 ++ press 0 1 ++ press 0 2 ++ press 1 0 ++ press 3 2)%list.

Definition locked_state : System := Eval vm_compute in run three_wrong boot.

Definition open_state : System := Eval vm_compute in run right_code boot.

(** What holds of the controller in every state the program reaches:
    an open door goes with no lockout, an empty buffer, a zero counter
    and an engaged relay; the buffer and the counter stay within their
    bounds; and a counter at the limit goes with lockout. *)
Definition Inv (s : System) : Prop :=
  (isDoorOpen s = true ->
   isLockedOut s = false /\ inputPassword s = ""
   /\ failedAttempts s = 0 /\ lockControl s = true)
  /\ (String.length (inputPassword s) <= MAX_PASSWORD_LENGTH)%nat
  /\ 0 <= failedAttempts s <= MAX_FAILED_ATTEMPTS
  /\ (isLockedOut s = false -> failedAttempts s < MAX_FAILED_ATTEMPTS).

(** The buffer is within its configured length. *)
Definition bounded (s : System) : Prop :=
  (String.length (inputPassword s) <= MAX_PASSWORD_LENGTH)%nat.

(** Nine presses of the key "9". *)
Definition nine_nines : list Event :=
  (press 2 2 ++ press 2 2 ++ press 2 2 ++ press 2 2 ++ press 2 2
   ++ press 2 2 ++ press 2 2 ++ press 2 2 ++ press 2 2)%list.

Definition full_state : System := Eval vm_compute in run nine_nines boot.

(** The state in which an iteration dispatches its key: after the
    timer checks and the keypad scan. *)
Definition at_dispatch (sw : Switches) (dt : N) (s : System) : System :=
  snd (keypad_getKey sw (timer_checks (set_clock (clock s + Z.of_N dt) s))).

(** The buffer an iteration submits for checking, if it does: the key
    read is ['#'], the door is closed at dispatch and the buffer is not
    empty. *)
Definition submitted (sw : Switches) (dt : N) (s : System) : option string :=
  let d := at_dispatch sw dt s in
  if Ascii.eqb (delivered sw dt s) "#"
     && negb (isDoorOpen d)
     && (0 <? String.length (inputPassword d))%nat
  then Some (inputPassword d) else None.

(** The buffers submitted in the course of a run, in order. *)
Fixpoint submissions (es : list Event) (s : System) : list string :=
  match es with
  | [] => []
  | e :: rest =>
      match e with
      | Iteration sw dt =>
          match submitted sw dt s with
          | Some b => [b]
          | None => []
          end
      | LedTick => []
      end ++ submissions rest (step e s)
  end%list.

(** The symbols the iterations of a run read from the keypad, in order. *)
Fixpoint keys_read (es : list Event) (s : System) : list ascii :=
  match es with
  | [] => []
  | e :: rest =>
      match e with
      | Iteration sw dt => [delivered sw dt s]
      | LedTick => []
      end ++ keys_read rest (step e s)
  end%list.

(** The [EnteringPassword] state: door closed and not locked out. *)
Definition entering (s : System) : Prop :=
  isDoorOpen s = false /\ isLockedOut s = false.

(** The states a run passes through, one after each event. *)
Fixpoint visited (es : list Event) (s : System) : list System :=
  match es with
  | [] => []
  | e :: rest => step e s :: visited rest (step e s)
  end.

(** Typing [9 #], [9 #], [C], [9 #]. *)
Definition wrong_wrong_reset_wrong : list Event :=
  (press 2 2 ++ press 3 2 ++ press 2 2 ++ press 3 2
   ++ press 2 3 ++ press 2 2 ++ press 3 2)%list.

(* ================================================================== *)
(** * Vocabulary for the further properties *)
(* ================================================================== *)

(** Door-open duration in clock units. *)
Definition OPEN_TIME_US : Z := OPEN_TIME_MS * 1000.

(** The span over which [Timer::read_ms] of a timer started from zero
    still fits the [int] it returns, in clock units. *)
Definition TIMER_RANGE_US : Z := Mbed.two31 * 1000.

(** The door is open and its timer has been running from zero since
    clock value [t1]. *)
Definition open_since (t1 : Z) (s : System) : Prop :=
  isDoorOpen s = true
  /\ doorTimer s
     = {| Mbed._running := true; Mbed._start := t1; Mbed._time := 0 |}
  /\ t1 <= clock s.

(** The relay and the indicator agree with the door flag: the relay is
    energised exactly while the door is open, the LED is solid on while
    it is closed, and the ticker runs at the normal period while it is
    open. *)
Definition wired (s : System) : Prop :=
  lockControl s = isDoorOpen s
  /\ (isDoorOpen s = false -> led s = true)
  /\ (isDoorOpen s = true -> ledTicker s = Some 250).

(** All characters of a buffer are digits. *)
Definition digits_only (b : string) : bool :=
  forallb is_digit (list_ascii_of_string b).

(** The non-null symbols the iterations of a run read, in order. *)
Definition typed (es : list Event) (s : System) : list ascii :=
  filter (fun k => negb (Ascii.eqb k zero)) (keys_read es s).

(** The sixteen symbols of the key map, row by row. *)
Definition key_symbols : list ascii := List.concat keys.

(** test_keypad.cpp: [getKeyIndex], the position of a key in
    ["123A456B789C*0#D"], or -1. *)
Definition keyMap : string := "123A456B789C*0#D".

Definition getKeyIndex (key : ascii) : Z :=
  match
    find (fun i => match String.get i keyMap with
                   | Some c => Ascii.eqb c key
                   | None => false
                   end)
         (seq 0 16)
  with
  | Some i => Z.of_nat i
  | None => -1
  end.

(** The least a run takes: for each iteration its slack and the 100 ms
    sleep that ends it. *)
Fixpoint least_duration (es : list Event) : Z :=
  match es with
  | [] => 0
  | Iteration _ dt :: rest => Z.of_N dt + 100000 + least_duration rest
  | LedTick :: rest => least_duration rest
  end.

(* ================================================================== *)
(** * Keypad: the matrix scan *)
(* ================================================================== *)

Section KeypadScan.

Variable sw : Switches.

(** With one row driven LOW, a column reads LOW exactly when the switch
    at that row and column is closed. *)
Lemma col_read_drive_row (rows : Z) (row col : nat) :
  (row < Z.to_nat rows)%nat ->
  Keypad.col_read sw (Keypad.drive_row rows row) col = negb (sw row col).
Proof.
  intros Hrow. unfold Keypad.col_read, Keypad.drive_row.
  f_equal. rewrite length_map, length_seq.
  apply eq_true_iff_eq. rewrite existsb_exists. split.
  - intros [r [Hin Hr]]. apply in_seq in Hin.
    apply andb_true_iff in Hr. destruct Hr as [Hpin Hsw].
    rewrite (nth_indep _ true (negb (Nat.eqb 0 row))) in Hpin
      by (rewrite length_map, length_seq; lia).
    rewrite (map_nth (fun i => negb (Nat.eqb i row))) in Hpin.
    rewrite seq_nth in Hpin by lia. simpl in Hpin.
    rewrite negb_involutive in Hpin. apply Nat.eqb_eq in Hpin.
    now subst r.
  - intros Hsw. exists row. split; [apply in_seq; lia|].
    rewrite (nth_indep _ true (negb (Nat.eqb 0 row)))
      by (rewrite length_map, length_seq; lia).
    rewrite (map_nth (fun i => negb (Nat.eqb i row))).
    rewrite seq_nth by lia. simpl.
    now rewrite Nat.eqb_refl, Hsw.
Qed.

Lemma scan_cols_none (rows : Z) (ks : list (list ascii)) (row : nat)
      (cols : list nat) :
  (row < Z.to_nat rows)%nat ->
  (forall c, In c cols -> sw row c = false) ->
  Keypad.scan_cols sw (Keypad.drive_row rows row) ks row cols = None.
Proof.
  intros Hrow. induction cols as [|c cols IH]; intros Hall; simpl.
  - reflexivity.
  - rewrite col_read_drive_row by assumption.
    rewrite (Hall c) by now left. simpl.
    apply IH. intros c' Hc'. apply Hall. now right.
Qed.

Lemma scan_cols_first (rows : Z) (ks : list (list ascii)) (row col : nat)
      (pre post : list nat) :
  (row < Z.to_nat rows)%nat ->
  (forall c, In c pre -> sw row c = false) ->
  sw row col = true ->
  Keypad.scan_cols sw (Keypad.drive_row rows row) ks row
                   (pre ++ col :: post)%list
  = Some (Keypad.key_at ks row col).
Proof.
  intros Hrow. induction pre as [|c pre IH]; intros Hpre Hsw; simpl.
  - rewrite col_read_drive_row by assumption. now rewrite Hsw.
  - rewrite col_read_drive_row by assumption.
    rewrite (Hpre c) by now left. simpl.
    apply IH; [|assumption]. intros c' Hc'. apply Hpre. now right.
Qed.

(** Rows in which no switch is closed are passed over. *)
Lemma scan_rows_skip (kp : Keypad.t) (pre rest : list nat) (now : Z) :
  (forall r, In r pre -> (r < Z.to_nat (Keypad._rows kp))%nat) ->
  (forall r c, In r pre -> (c < Z.to_nat (Keypad._cols kp))%nat ->
               sw r c = false) ->
  Keypad.scan_rows sw kp (pre ++ rest)%list now
  = Keypad.scan_rows sw kp rest (now + 10 * Z.of_nat (List.length pre)).
Proof.
  revert now. induction pre as [|r pre IH]; intros now Hlt Hoff.
  - simpl. f_equal. lia.
  - cbn [app Keypad.scan_rows].
    rewrite scan_cols_none.
    + rewrite IH.
      * f_equal. cbn [List.length]. lia.
      * intros r' Hr'. apply Hlt. now right.
      * intros r' c Hr' Hc. apply Hoff; [now right | assumption].
    + apply Hlt. now left.
    + intros c Hc. apply in_seq in Hc. apply Hoff; [now left | lia].
Qed.

(** The symbol found does not depend on the clock. *)
Lemma scan_rows_symbol (kp : Keypad.t) (rows : list nat) (now now' : Z) :
  fst (Keypad.scan_rows sw kp rows now)
  = fst (Keypad.scan_rows sw kp rows now').
Proof.
  revert now now'. induction rows as [|r rows IH]; intros now now'; simpl.
  - reflexivity.
  - destruct (Keypad.scan_cols _ _ _ _ _); [reflexivity | apply IH].
Qed.

(** A scan takes time, never gives it back. *)
Lemma scan_rows_clock (kp : Keypad.t) (rows : list nat) (now : Z) :
  now <= snd (Keypad.scan_rows sw kp rows now).
Proof.
  revert now. induction rows as [|r rows IH]; intros now; simpl.
  - lia.
  - destruct (Keypad.scan_cols _ _ _ _ _); simpl.
    + lia.
    + specialize (IH (now + 10)). lia.
Qed.

Lemma scanKeys_symbol (now : Z) (kp : Keypad.t) :
  fst (fst (Keypad.scanKeys sw now kp)) = Keypad.scanned sw kp.
Proof.
  unfold Keypad.scanKeys, Keypad.scanned.
  rewrite (scan_rows_symbol kp _ 0 now).
  now destruct (Keypad.scan_rows sw kp _ now).
Qed.

Lemma scanKeys_object (now : Z) (kp : Keypad.t) :
  snd (Keypad.scanKeys sw now kp)
  = Keypad.set_rowPins (Keypad.all_high (Keypad._rows kp)) kp.
Proof.
  unfold Keypad.scanKeys. now destruct (Keypad.scan_rows sw kp _ now).
Qed.

Lemma scanKeys_clock (now : Z) (kp : Keypad.t) :
  now <= snd (fst (Keypad.scanKeys sw now kp)).
Proof.
  unfold Keypad.scanKeys.
  pose proof (scan_rows_clock kp (seq 0 (Z.to_nat (Keypad._rows kp))) now).
  now destruct (Keypad.scan_rows sw kp _ now).
Qed.

End KeypadScan.

Lemma scanned_same_geometry (sw : Switches) (kp kp' : Keypad.t) :
  same_geometry kp kp' -> Keypad.scanned sw kp' = Keypad.scanned sw kp.
Proof.
  intros (Hk & Hr & Hc). unfold Keypad.scanned. rewrite Hr.
  generalize (seq 0 (Z.to_nat (Keypad._rows kp))) as rows.
  generalize 0 as now.
  intros now rows. revert now.
  induction rows as [|r rows IH]; intros now; simpl.
  - reflexivity.
  - rewrite Hk, Hr, Hc.
    destruct (Keypad.scan_cols _ _ _ _ _); [reflexivity | apply IH].
Qed.

(** What one [getKey] call returns and leaves behind, in terms of the
    scanned symbol. *)
Lemma getKey_cases (sw : Switches) (now : Z) (kp : Keypad.t) :
  let k := Keypad.scanned sw kp in
  let r := Keypad.getKey sw now kp in
  fst (fst r)
  = (if negb (Ascii.eqb k zero) && negb (Ascii.eqb k (Keypad._lastKey kp))
     then k else zero)
  /\ Keypad._lastKey (snd r) = k
  /\ same_geometry kp (snd r)
  /\ now <= snd (fst r).
Proof.
  intros k r. subst k r. unfold Keypad.getKey.
  pose proof (scanKeys_symbol sw now kp) as Hsym.
  pose proof (scanKeys_object sw now kp) as Hobj.
  pose proof (scanKeys_clock sw now kp) as Hclk.
  destruct (Keypad.scanKeys sw now kp) as [[k now'] kp'].
  simpl in Hsym, Hobj, Hclk. subst k kp'.
  cbn [Keypad._lastKey Keypad.set_rowPins].
  destruct (Ascii.eqb (Keypad.scanned sw kp) zero) eqn:Hz; cbn [negb andb].
  - apply Ascii.eqb_eq in Hz. rewrite Hz.
    repeat split; assumption.
  - destruct (Ascii.eqb (Keypad.scanned sw kp) (Keypad._lastKey kp)) eqn:Hl;
      cbn [negb].
    + apply Ascii.eqb_eq in Hl.
      destruct (_ >? _); cbn; repeat split; auto.
    + cbn. repeat split; auto.
Qed.

Lemma seq_split_at (k n : nat) :
  (k < n)%nat -> seq 0 n = (seq 0 k ++ k :: seq (S k) (n - S k))%list.
Proof.
  intros Hk. replace n with (k + S (n - S k))%nat at 1 by lia.
  now rewrite seq_app.
Qed.

(** C6.  [scanKeys] returns [_keys[row][col]] for the closed switch that
    comes first in row-major, column-ascending order: the one in the
    smallest row that has any, and in that row the smallest column.  When
    no switch of the matrix is closed it returns the null symbol.  Either
    way every row is left HIGH. *)
Theorem scanKeys_first_active (sw : Switches) (now : Z) (kp : Keypad.t) :
  let R := Z.to_nat (Keypad._rows kp) in
  let C := Z.to_nat (Keypad._cols kp) in
  (forall row col,
      (row < R)%nat -> (col < C)%nat ->
      sw row col = true ->
      (forall r c, (r < R)%nat -> (c < C)%nat ->
                   (r < row \/ (r = row /\ c < col))%nat -> sw r c = false) ->
      fst (fst (Keypad.scanKeys sw now kp))
      = Keypad.key_at (Keypad._keys kp) row col)
  /\ ((forall r c, (r < R)%nat -> (c < C)%nat -> sw r c = false) ->
      fst (fst (Keypad.scanKeys sw now kp)) = zero)
  /\ Keypad._rowPins (snd (Keypad.scanKeys sw now kp))
     = Keypad.all_high (Keypad._rows kp).
Proof.
  intros R C. rewrite scanKeys_symbol, scanKeys_object.
  unfold Keypad.scanned. fold R. split; [|split].
  - intros row col Hrow Hcol Hsw Hfirst.
    rewrite (seq_split_at row R) by assumption.
    rewrite scan_rows_skip.
    + cbn [Keypad.scan_rows]. fold C.
      rewrite (seq_split_at col C) by assumption.
      rewrite scan_cols_first; [reflexivity | assumption | | assumption].
      intros c Hc. apply in_seq in Hc.
      apply Hfirst; [assumption | lia | right; lia].
    + intros r Hr. apply in_seq in Hr. fold R. lia.
    + intros r c Hr Hc. apply in_seq in Hr.
      apply Hfirst; [lia | assumption | left; lia].
  - intros Hnone.
    rewrite <- (app_nil_r (seq 0 R)). rewrite scan_rows_skip.
    + reflexivity.
    + intros r Hr. apply in_seq in Hr. fold R. lia.
    + intros r c Hr Hc. apply in_seq in Hr. apply Hnone; [lia | assumption].
  - reflexivity.
Qed.

Lemma scanKeys_first_active_witness :
  fst (fst (Keypad.scanKeys three_keys 0 (keypad boot))) = "6"%char
  /\ fst (fst (Keypad.scanKeys no_key 0 (keypad boot))) = zero.
Proof.
  split.
  - apply (proj1 (scanKeys_first_active three_keys 0 (keypad boot))
                 1%nat 2%nat).
    + vm_compute. lia.
    + vm_compute. lia.
    + reflexivity.
    + intros r c Hr Hc Hlt.
      destruct r as [|[|r]]; [reflexivity | | simpl in Hlt; lia].
      destruct c as [|[|c]]; [reflexivity | reflexivity | simpl in Hlt; lia].
  - apply (proj1 (proj2 (scanKeys_first_active no_key 0 (keypad boot)))).
    reflexivity.
Defined.

(* ================================================================== *)
(** * Keypad: edge-triggered reporting *)
(* ================================================================== *)

Lemma same_geometry_trans (a b c : Keypad.t) :
  same_geometry a b -> same_geometry b c -> same_geometry a c.
Proof.
  intros (H1 & H2 & H3) (H4 & H5 & H6).
  repeat split; congruence.
Qed.

Lemma poll_app (a b : list (Switches * Z)) (now : Z) (kp : Keypad.t) :
  Keypad.poll (a ++ b)%list now kp
  = let '(ka, n1, kp1) := Keypad.poll a now kp in
    let '(kb, n2, kp2) := Keypad.poll b n1 kp1 in
    ((ka ++ kb)%list, n2, kp2).
Proof.
  revert now kp. induction a as [|[sw dt] a IH]; intros now kp.
  - cbn [app Keypad.poll].
    now destruct (Keypad.poll b now kp) as [[kb n2] kp2].
  - cbn [app Keypad.poll].
    destruct (Keypad.getKey sw (now + dt) kp) as [[k n1] kp1].
    rewrite IH.
    destruct (Keypad.poll a n1 kp1) as [[ka n2] kp2].
    now destruct (Keypad.poll b n2 kp2) as [[kb n3] kp3].
Qed.

(** While the symbol that was last reported stays on the scan, nothing is
    reported, however many calls are made. *)
Lemma poll_held (kp0 : Keypad.t) (k : ascii)
      (held : list (Switches * Z)) :
  forall (now : Z) (kp : Keypad.t),
    same_geometry kp0 kp ->
    Keypad._lastKey kp = k ->
    Forall (fun i => Keypad.scanned (fst i) kp0 = k) held ->
    let r := Keypad.poll held now kp in
    fst (fst r) = repeat zero (List.length held)
    /\ Keypad._lastKey (snd r) = k
    /\ same_geometry kp0 (snd r).
Proof.
  induction held as [|[sw dt] held IH]; intros now kp Hgeo Hlast Hall.
  - cbn. auto.
  - pose proof (Forall_inv Hall) as Hsw. cbn [fst] in Hsw.
    pose proof (Forall_inv_tail Hall) as Hrest.
    cbn [Keypad.poll].
    destruct (getKey_cases sw (now + dt) kp) as (Hout & Hl & Hg & _).
    rewrite (scanned_same_geometry sw kp0 kp Hgeo), Hsw in Hout, Hl.
    rewrite Hlast in Hout.
    destruct (Keypad.getKey sw (now + dt) kp) as [[k1 n1] kp1].
    cbn [fst snd] in Hout, Hl, Hg.
    rewrite Ascii.eqb_refl in Hout. rewrite andb_false_r in Hout.
    destruct (IH n1 kp1 (same_geometry_trans _ _ _ Hgeo Hg) Hl Hrest)
      as (Ho & Hl' & Hg').
    destruct (Keypad.poll held n1 kp1) as [[ks n2] kp2].
    cbn [fst snd] in *. cbn [List.length repeat].
    split; [congruence | split; assumption].
Qed.

(** C5.  [getKey] is edge-triggered.  A symbol that appears on the scan
    and differs from the last-reported one is returned by that call, and
    every further call made while the same symbol stays on the scan
    returns the null symbol, whatever the number of such calls and the
    time between them: one report per press.  A scan that finds nothing
    returns null and clears the last-reported symbol, so that the same
    key is reported again when it is next pressed. *)
Theorem getKey_edge_triggered
        (kp : Keypad.t) (now : Z) (k : ascii)
        (press : Switches * Z) (held : list (Switches * Z)) :
  k <> zero ->
  Keypad._lastKey kp <> k ->
  Keypad.scanned (fst press) kp = k ->
  Forall (fun i => Keypad.scanned (fst i) kp = k) held ->
  (let r := Keypad.poll (press :: held) now kp in
   fst (fst r) = k :: repeat zero (List.length held)
   /\ Keypad._lastKey (snd r) = k)
  /\ (forall release again : Switches * Z,
         Keypad.scanned (fst release) kp = zero ->
         Keypad.scanned (fst again) kp = k ->
         (let r := Keypad.poll (press :: held ++ [release])%list now kp in
          fst (fst r) = (k :: repeat zero (List.length held) ++ [zero])%list
          /\ Keypad._lastKey (snd r) = zero)
         /\ fst (fst (Keypad.poll (press :: held ++ [release; again])%list
                                  now kp))
            = (k :: repeat zero (List.length held) ++ [zero; k])%list).
Proof.
  intros Hk Hlast Hpress Hheld.
  destruct press as [sw0 dt0]. cbn [fst] in Hpress.
  (* the press *)
  cbn [Keypad.poll].
  destruct (getKey_cases sw0 (now + dt0) kp) as (Hout & Hl & Hg & _).
  rewrite Hpress in Hout, Hl.
  destruct (Keypad.getKey sw0 (now + dt0) kp) as [[k0 n0] kp0].
  cbn [fst snd] in Hout, Hl, Hg.
  assert (Hne1 : Ascii.eqb k zero = false) by now apply Ascii.eqb_neq.
  assert (Hne2 : Ascii.eqb k (Keypad._lastKey kp) = false)
    by (apply Ascii.eqb_neq; congruence).
  rewrite Hne1, Hne2 in Hout. cbn in Hout. subst k0.
  (* the hold *)
  pose proof (poll_held kp k held n0 kp0 Hg Hl Hheld) as Hh.
  split.
  { destruct (Keypad.poll held n0 kp0) as [[ks n1] kp1].
    cbn [fst snd] in Hh. destruct Hh as (Hks & Hl1 & Hg1). subst ks.
    now split. }
  intros [sw1 dt1] [sw2 dt2] Hrel Hagain. cbn [fst] in Hrel, Hagain.
  rewrite !poll_app.
  destruct (Keypad.poll held n0 kp0) as [[ks n1] kp1].
  cbn [fst snd] in Hh. destruct Hh as (Hks & Hl1 & Hg1). subst ks.
  (* the release *)
  cbn [Keypad.poll].
  destruct (getKey_cases sw1 (n1 + dt1) kp1) as (Hout1 & Hl2 & Hg2 & _).
  rewrite (scanned_same_geometry sw1 kp kp1 Hg1), Hrel in Hout1, Hl2.
  destruct (Keypad.getKey sw1 (n1 + dt1) kp1) as [[k1 n2] kp2].
  cbn [fst snd] in Hout1, Hl2, Hg2. cbn in Hout1. subst k1.
  split; [now split|].
  (* the next press *)
  destruct (getKey_cases sw2 (n2 + dt2) kp2) as (Hout2 & _).
  rewrite (scanned_same_geometry sw2 kp kp2
             (same_geometry_trans _ _ _ Hg1 Hg2)), Hagain, Hl2 in Hout2.
  destruct (Keypad.getKey sw2 (n2 + dt2) kp2) as [[k2 n3] kp3].
  cbn [fst snd] in Hout2. rewrite Hne1 in Hout2. cbn in Hout2. subst k2.
  reflexivity.
Qed.

Lemma getKey_edge_triggered_witness :
  fst (fst (Keypad.poll
              [(hold 1 1, 0); (hold 1 1, 100000); (hold 1 1, 100000);
               (hold 1 1, 100000); (no_key, 100000); (hold 1 1, 100000)]
              0 (keypad boot)))
  = ["5"; zero; zero; zero; zero; "5"]%char.
Proof.
  apply (getKey_edge_triggered
           (keypad boot) 0 "5"%char (hold 1 1, 0)
           [(hold 1 1, 100000); (hold 1 1, 100000); (hold 1 1, 100000)]).
  - discriminate.
  - discriminate.
  - reflexivity.
  - repeat constructor.
  - reflexivity.
  - reflexivity.
Defined.

(* ================================================================== *)
(** * The display does not feed back into the controller *)
(* ================================================================== *)

Lemma set_lcd_same (s : System) : set_lcd (lcd s) s = s.
Proof. now destruct s. Qed.

Lemma print_mask_frame (n : nat) (s : System) :
  Nat.iter n (lcd_printf "*") s
  = set_lcd (lcd (Nat.iter n (lcd_printf "*") s)) s.
Proof.
  induction n as [|n IH]; cbn [Nat.iter nat_rect].
  - now rewrite set_lcd_same.
  - rewrite IH at 1. reflexivity.
Qed.

(** [updateLCD] writes to the display and to nothing else. *)
Lemma updateLCD_frame (s : System) :
  updateLCD s = set_lcd (lcd (updateLCD s)) s.
Proof.
  unfold updateLCD. cbn [isLockedOut isDoorOpen lcd_cls set_lcd].
  destruct (isLockedOut s); [reflexivity|].
  destruct (isDoorOpen s); [reflexivity|].
  rewrite print_mask_frame at 1. reflexivity.
Qed.

Lemma updateLCD_clock (s : System) : clock (updateLCD s) = clock s.
Proof. now rewrite updateLCD_frame. Qed.
Lemma updateLCD_led (s : System) : led (updateLCD s) = led s.
Proof. now rewrite updateLCD_frame. Qed.
Lemma updateLCD_ledTicker (s : System) : ledTicker (updateLCD s) = ledTicker s.
Proof. now rewrite updateLCD_frame. Qed.
Lemma updateLCD_lockControl (s : System) : lockControl (updateLCD s) = lockControl s.
Proof. now rewrite updateLCD_frame. Qed.
Lemma updateLCD_keypad (s : System) : keypad (updateLCD s) = keypad s.
Proof. now rewrite updateLCD_frame. Qed.
Lemma updateLCD_inputPassword (s : System) : inputPassword (updateLCD s) = inputPassword s.
Proof. now rewrite updateLCD_frame. Qed.
Lemma updateLCD_failedAttempts (s : System) : failedAttempts (updateLCD s) = failedAttempts s.
Proof. now rewrite updateLCD_frame. Qed.
Lemma updateLCD_isDoorOpen (s : System) : isDoorOpen (updateLCD s) = isDoorOpen s.
Proof. now rewrite updateLCD_frame. Qed.
Lemma updateLCD_isLockedOut (s : System) : isLockedOut (updateLCD s) = isLockedOut s.
Proof. now rewrite updateLCD_frame. Qed.
Lemma updateLCD_doorTimer (s : System) : doorTimer (updateLCD s) = doorTimer s.
Proof. now rewrite updateLCD_frame. Qed.
Lemma updateLCD_lockoutTimer (s : System) : lockoutTimer (updateLCD s) = lockoutTimer s.
Proof. now rewrite updateLCD_frame. Qed.
Lemma updateLCD_fastFlash (s : System) : fastFlash (updateLCD s) = fastFlash s.
Proof. now rewrite updateLCD_frame. Qed.

Create Rewrite HintDb frame.

#[local] Hint Rewrite
  updateLCD_clock
  updateLCD_led
  updateLCD_ledTicker
  updateLCD_lockControl
  updateLCD_keypad
  updateLCD_inputPassword
  updateLCD_failedAttempts
  updateLCD_isDoorOpen
  updateLCD_isLockedOut
  updateLCD_doorTimer
  updateLCD_lockoutTimer
  updateLCD_fastFlash
  : frame.

Arguments updateLCD : simpl never.

(** What [updateLCD] draws while a password is being entered. *)
Lemma updateLCD_lcd_entering (s : System) :
  isLockedOut s = false ->
  isDoorOpen s = false ->
  lcd (updateLCD s)
  = lcd (Nat.iter (String.length (inputPassword s)) (lcd_printf "*")
                  (lcd_locate 0 1 (lcd_printf "Enter Password:" (lcd_cls s)))).
Proof.
  intros Hlock Hdoor. unfold updateLCD.
  cbn [isLockedOut isDoorOpen lcd_cls set_lcd].
  now rewrite Hlock, Hdoor.
Qed.

Lemma control_updateLCD (s : System) : control (updateLCD s) = control s.
Proof. now rewrite updateLCD_frame. Qed.

Lemma control_sleep_for (ms : Z) (s : System) :
  control (sleep_for ms s) = control s.
Proof. reflexivity. Qed.

Lemma control_lcd_cls (s : System) : control (lcd_cls s) = control s.
Proof. reflexivity. Qed.

Lemma control_lcd_printf (text : string) (s : System) :
  control (lcd_printf text s) = control s.
Proof. reflexivity. Qed.

Lemma control_lcd_locate (col row : Z) (s : System) :
  control (lcd_locate col row s) = control s.
Proof. reflexivity. Qed.

Lemma control_fields (s s' : System) :
  control s' = control s ->
  inputPassword s' = inputPassword s
  /\ failedAttempts s' = failedAttempts s
  /\ isDoorOpen s' = isDoorOpen s
  /\ isLockedOut s' = isLockedOut s.
Proof.
  intros H.
  pose proof (f_equal inputPassword H) as H1.
  pose proof (f_equal failedAttempts H) as H2.
  pose proof (f_equal isDoorOpen H) as H3.
  pose proof (f_equal isLockedOut H) as H4.
  now repeat split.
Qed.

#[local] Hint Rewrite
  control_updateLCD control_sleep_for control_lcd_cls control_lcd_printf
  control_lcd_locate
  : frame.

(** Push field reads through the setters and the device calls. *)
Ltac fields :=
  cbn [clock lcd led ledTicker lockControl keypad inputPassword failedAttempts
       isDoorOpen isLockedOut doorTimer lockoutTimer fastFlash
       set_clock set_lcd set_led set_ledTicker set_lockControl set_keypad
       set_inputPassword set_failedAttempts set_isDoorOpen set_isLockedOut
       set_doorTimer set_lockoutTimer set_fastFlash
       lcd_cls lcd_printf lcd_locate sleep_for control
       negb andb orb] in *.

Ltac simp :=
  repeat first [ progress fields | progress autorewrite with frame in * ].

(** Turn the recorded outcomes of boolean tests into propositions. *)
(** [i++] below [INT_MAX] is the successor. *)
Lemma int_succ_small (i : Z) : i < 2147483647 -> int_succ i = i + 1.
Proof.
  intros H. unfold int_succ.
  destruct (i =? 2147483647)%Z eqn:E; [apply Z.eqb_eq in E; lia | reflexivity].
Qed.

Ltac norm_hyps :=
  repeat match goal with
         | H : _ && _ = true |- _ => apply andb_true_iff in H; destruct H
         | H : negb _ = true |- _ => apply negb_true_iff in H
         | H : negb _ = false |- _ => apply negb_false_iff in H
         | H : (_ >=? _) = _ |- _ => rewrite Z.geb_leb in H
         | H : (_ >? _) = _ |- _ => rewrite Z.gtb_ltb in H
         | H : (_ <=? _) = true |- _ => apply Z.leb_le in H
         | H : (_ <=? _) = false |- _ => apply Z.leb_gt in H
         | H : (_ <? _) = true |- _ => apply Z.ltb_lt in H
         | H : (_ <? _) = false |- _ => apply Z.ltb_ge in H
         | H : (_ <? _)%nat = true |- _ => apply Nat.ltb_lt in H
         | H : (_ <? _)%nat = false |- _ => apply Nat.ltb_ge in H
         end.

(** Case analysis on the conditions of the code, outermost first: a
    condition under a [let] becomes visible once the [let] is unfolded. *)
Ltac branch :=
  repeat (cbv zeta;
          match goal with
          | |- context [if ?c then _ else _] => destruct c eqn:?
          end);
  cbv zeta.

(* ================================================================== *)
(** * Key dispatch: digits are not special keys *)
(* ================================================================== *)

Lemma is_digit_not_special (key : ascii) :
  is_digit key = true ->
  Ascii.eqb key zero = false /\ Ascii.eqb key "#" = false
  /\ Ascii.eqb key "*" = false /\ Ascii.eqb key "C" = false.
Proof.
  intros Hd. repeat split; apply Ascii.eqb_neq; intros ->; discriminate Hd.
Qed.

(* ================================================================== *)
(** * The invariant of the running program *)
(* ================================================================== *)

Lemma length_append_char (b : string) (c : ascii) :
  String.length (b ++ String c "") = S (String.length b).
Proof. induction b as [|a b IH]; cbn; [reflexivity | now rewrite IH]. Qed.

Lemma Inv_handle_key (key : ascii) (s : System) :
  Inv s -> Inv (handle_key key s).
Proof.
  unfold Inv, handle_key, checkPassword, handleSpecialKeys, openLock.
  unfold MAX_FAILED_ATTEMPTS, MAX_PASSWORD_LENGTH.
  intros (Hopen & Hlen & Hcnt & Hlim).
  rewrite (int_succ_small (failedAttempts s)) by lia.
  branch; simp; norm_hyps; rewrite ?length_append_char;
    (split; [intros Ho | split; [ | split; [ | intros Hl ]]]);
    try (destruct Hopen as (? & ? & ? & ?); [congruence|]);
    repeat split; try congruence; try lia; try (cbn; lia);
    try (apply Hlim; congruence).
Qed.

Ltac solve_Inv Hopen Hlim :=
  branch; simp; norm_hyps;
  (split; [intros ? | split; [ | split; [ | intros ? ]]]);
  try (destruct Hopen as (? & ? & ? & ?); [congruence|]);
  repeat split; try congruence; try lia; try (cbn; lia);
  try (apply Hlim; congruence).

Lemma Inv_check_lockout (s : System) : Inv s -> Inv (check_lockout s).
Proof.
  unfold Inv, check_lockout, resetSystem.
  unfold MAX_FAILED_ATTEMPTS, MAX_PASSWORD_LENGTH.
  intros (Hopen & Hlen & Hcnt & Hlim). solve_Inv Hopen Hlim.
Qed.

Lemma Inv_check_autoclose (s : System) : Inv s -> Inv (check_autoclose s).
Proof.
  unfold Inv, check_autoclose, closeLock.
  unfold MAX_FAILED_ATTEMPTS, MAX_PASSWORD_LENGTH.
  intros (Hopen & Hlen & Hcnt & Hlim). solve_Inv Hopen Hlim.
Qed.

Lemma Inv_refresh_countdown (s : System) : Inv s -> Inv (refresh_countdown s).
Proof.
  unfold Inv, refresh_countdown.
  intros (Hopen & Hlen & Hcnt & Hlim). solve_Inv Hopen Hlim.
Qed.

Lemma Inv_timer_checks (s : System) : Inv s -> Inv (timer_checks s).
Proof.
  intros H. unfold timer_checks. cbv zeta.
  now apply Inv_refresh_countdown, Inv_check_autoclose, Inv_check_lockout.
Qed.

(** [keypad.getKey()] touches the keypad object and the clock only. *)
Lemma keypad_getKey_state (sw : Switches) (s : System) :
  let r := Keypad.getKey sw (clock s) (keypad s) in
  keypad_getKey sw s
  = (fst (fst r), set_keypad (snd r) (set_clock (snd (fst r)) s)).
Proof.
  unfold keypad_getKey.
  now destruct (Keypad.getKey sw (clock s) (keypad s)) as [[k now] kp].
Qed.

Lemma loop_body_unfold (sw : Switches) (dt : N) (s : System) :
  let s1 := timer_checks (set_clock (clock s + Z.of_N dt) s) in
  loop_body sw dt s
  = sleep_for 100 (handle_key (delivered sw dt s) (snd (keypad_getKey sw s1))).
Proof.
  unfold loop_body, delivered. cbv zeta.
  now destruct (keypad_getKey sw _) as [key s2].
Qed.

(** The keypad scan leaves every other part of the state as the timer
    checks left it. *)
Lemma at_dispatch_state (sw : Switches) (dt : N) (s : System) :
  exists kp now,
    at_dispatch sw dt s
    = set_keypad kp
        (set_clock now (timer_checks (set_clock (clock s + Z.of_N dt) s))).
Proof.
  unfold at_dispatch. rewrite keypad_getKey_state. cbv zeta.
  destruct (Keypad.getKey sw _ _) as [[k now] kp].
  now exists kp, now.
Qed.

Lemma at_dispatch_lcd (sw : Switches) (dt : N) (s : System) :
  lcd (at_dispatch sw dt s)
  = lcd (timer_checks (set_clock (clock s + Z.of_N dt) s)).
Proof. now destruct (at_dispatch_state sw dt s) as (kp & now & ->). Qed.

Lemma at_dispatch_led (sw : Switches) (dt : N) (s : System) :
  led (at_dispatch sw dt s)
  = led (timer_checks (set_clock (clock s + Z.of_N dt) s)).
Proof. now destruct (at_dispatch_state sw dt s) as (kp & now & ->). Qed.

Lemma at_dispatch_ledTicker (sw : Switches) (dt : N) (s : System) :
  ledTicker (at_dispatch sw dt s)
  = ledTicker (timer_checks (set_clock (clock s + Z.of_N dt) s)).
Proof. now destruct (at_dispatch_state sw dt s) as (kp & now & ->). Qed.

Lemma at_dispatch_lockControl (sw : Switches) (dt : N) (s : System) :
  lockControl (at_dispatch sw dt s)
  = lockControl (timer_checks (set_clock (clock s + Z.of_N dt) s)).
Proof. now destruct (at_dispatch_state sw dt s) as (kp & now & ->). Qed.

Lemma at_dispatch_inputPassword (sw : Switches) (dt : N) (s : System) :
  inputPassword (at_dispatch sw dt s)
  = inputPassword (timer_checks (set_clock (clock s + Z.of_N dt) s)).
Proof. now destruct (at_dispatch_state sw dt s) as (kp & now & ->). Qed.

Lemma at_dispatch_failedAttempts (sw : Switches) (dt : N) (s : System) :
  failedAttempts (at_dispatch sw dt s)
  = failedAttempts (timer_checks (set_clock (clock s + Z.of_N dt) s)).
Proof. now destruct (at_dispatch_state sw dt s) as (kp & now & ->). Qed.

Lemma at_dispatch_isDoorOpen (sw : Switches) (dt : N) (s : System) :
  isDoorOpen (at_dispatch sw dt s)
  = isDoorOpen (timer_checks (set_clock (clock s + Z.of_N dt) s)).
Proof. now destruct (at_dispatch_state sw dt s) as (kp & now & ->). Qed.

Lemma at_dispatch_isLockedOut (sw : Switches) (dt : N) (s : System) :
  isLockedOut (at_dispatch sw dt s)
  = isLockedOut (timer_checks (set_clock (clock s + Z.of_N dt) s)).
Proof. now destruct (at_dispatch_state sw dt s) as (kp & now & ->). Qed.

Lemma at_dispatch_doorTimer (sw : Switches) (dt : N) (s : System) :
  doorTimer (at_dispatch sw dt s)
  = doorTimer (timer_checks (set_clock (clock s + Z.of_N dt) s)).
Proof. now destruct (at_dispatch_state sw dt s) as (kp & now & ->). Qed.

Lemma at_dispatch_lockoutTimer (sw : Switches) (dt : N) (s : System) :
  lockoutTimer (at_dispatch sw dt s)
  = lockoutTimer (timer_checks (set_clock (clock s + Z.of_N dt) s)).
Proof. now destruct (at_dispatch_state sw dt s) as (kp & now & ->). Qed.

Lemma at_dispatch_fastFlash (sw : Switches) (dt : N) (s : System) :
  fastFlash (at_dispatch sw dt s)
  = fastFlash (timer_checks (set_clock (clock s + Z.of_N dt) s)).
Proof. now destruct (at_dispatch_state sw dt s) as (kp & now & ->). Qed.

#[local] Hint Rewrite
  at_dispatch_lcd
  at_dispatch_led
  at_dispatch_ledTicker
  at_dispatch_lockControl
  at_dispatch_inputPassword
  at_dispatch_failedAttempts
  at_dispatch_isDoorOpen
  at_dispatch_isLockedOut
  at_dispatch_doorTimer
  at_dispatch_lockoutTimer
  at_dispatch_fastFlash
  : frame.

Lemma loop_body_dispatch (sw : Switches) (dt : N) (s : System) :
  loop_body sw dt s
  = sleep_for 100 (handle_key (delivered sw dt s) (at_dispatch sw dt s)).
Proof. apply loop_body_unfold. Qed.

Lemma Inv_set_clock (c : Z) (s : System) : Inv s -> Inv (set_clock c s).
Proof. exact (fun H => H). Qed.

Lemma Inv_set_keypad (kp : Keypad.t) (s : System) :
  Inv s -> Inv (set_keypad kp s).
Proof. exact (fun H => H). Qed.

Lemma Inv_at_dispatch (sw : Switches) (dt : N) (s : System) :
  Inv s -> Inv (at_dispatch sw dt s).
Proof.
  intros H. destruct (at_dispatch_state sw dt s) as (kp & now & ->).
  apply Inv_set_keypad, Inv_set_clock, Inv_timer_checks, Inv_set_clock, H.
Qed.

Lemma Inv_loop_body (sw : Switches) (dt : N) (s : System) :
  Inv s -> Inv (loop_body sw dt s).
Proof.
  intros H. rewrite loop_body_dispatch.
  apply (Inv_set_clock _ (handle_key _ _)).
  apply Inv_handle_key, Inv_at_dispatch, H.
Qed.

Lemma Inv_ledFlashISR (s : System) : Inv s -> Inv (ledFlashISR s).
Proof. unfold ledFlashISR. destruct (isDoorOpen s); exact (fun H => H). Qed.

Lemma Inv_step (e : Event) (s : System) : Inv s -> Inv (step e s).
Proof.
  destruct e as [sw dt|]; [apply Inv_loop_body | apply Inv_ledFlashISR].
Qed.

Lemma Inv_run (es : list Event) (s : System) : Inv s -> Inv (run es s).
Proof.
  revert s. induction es as [|e es IH]; intros s H; [assumption|].
  apply IH, Inv_step, H.
Qed.

Lemma Inv_boot : Inv boot.
Proof.
  assert (Hd : isDoorOpen boot = false) by (vm_compute; reflexivity).
  assert (Hl : isLockedOut boot = false) by (vm_compute; reflexivity).
  assert (Hb : inputPassword boot = "") by (vm_compute; reflexivity).
  assert (Hf : failedAttempts boot = 0) by (vm_compute; reflexivity).
  unfold Inv. rewrite Hd, Hb, Hf.
  unfold MAX_FAILED_ATTEMPTS, MAX_PASSWORD_LENGTH.
  repeat split; try discriminate; cbn; lia.
Qed.

Lemma Inv_reachable (s : System) : reachable s -> Inv s.
Proof. intros [es ->]. apply Inv_run, Inv_boot. Qed.


(** C9.  In every state reached from boot, through any sequence of loop
    iterations (whatever keys are held, whatever time passes between
    them) and LED ticker interrupts, the door-open flag and the
    locked-out flag are not both true. *)
Theorem door_open_excludes_lockout (es : list Event) :
  isDoorOpen (run es boot) && isLockedOut (run es boot) = false.
Proof.
  destruct (Inv_run es boot Inv_boot) as (Hopen & _).
  destruct (isDoorOpen (run es boot)); [|reflexivity].
  now destruct (Hopen eq_refl) as (-> & _).
Qed.

(* ================================================================== *)
(** * The buffer bound *)
(* ================================================================== *)

Ltac solve_bounded :=
  branch; simp; norm_hyps; rewrite ?length_append_char;
  try assumption; try lia; try (cbn; lia).

Lemma bounded_handle_key (key : ascii) (s : System) :
  bounded s -> bounded (handle_key key s).
Proof.
  unfold bounded, handle_key, checkPassword, handleSpecialKeys, openLock.
  unfold MAX_PASSWORD_LENGTH. intros Hlen. solve_bounded.
Qed.

Lemma bounded_timer_checks (s : System) :
  bounded s -> bounded (timer_checks s).
Proof.
  unfold bounded, timer_checks, check_lockout, check_autoclose,
    refresh_countdown, resetSystem, closeLock.
  unfold MAX_PASSWORD_LENGTH. intros Hlen. solve_bounded.
Qed.

Lemma bounded_step (e : Event) (s : System) : bounded s -> bounded (step e s).
Proof.
  intros H. destruct e as [sw dt|]; cbn [step].
  - rewrite loop_body_dispatch.
    apply (bounded_handle_key _ (at_dispatch sw dt s)).
    unfold bounded. rewrite at_dispatch_inputPassword.
    exact (bounded_timer_checks (set_clock (clock s + Z.of_N dt) s) H).
  - unfold ledFlashISR. now destruct (isDoorOpen s).
Qed.

Lemma bounded_run (es : list Event) (s : System) :
  bounded s -> bounded (run es s).
Proof.
  revert s. induction es as [|e es IH]; intros s H; [assumption|].
  apply IH, bounded_step, H.
Qed.

(** C4.  The buffer never grows beyond [MAX_PASSWORD_LENGTH]: from any
    state whose buffer is within the bound, every sequence of events
    (with or without a ['#'] in it) leads to a state whose buffer is
    within the bound.  A digit that arrives when the buffer is exactly
    full is dropped: the dispatch returns the state it was given, buffer
    and everything else. *)
Theorem buffer_saturates (es : list Event) (s : System) (key : ascii) :
  (String.length (inputPassword s) <= MAX_PASSWORD_LENGTH)%nat ->
  (String.length (inputPassword (run es s)) <= MAX_PASSWORD_LENGTH)%nat
  /\ (is_digit key = true ->
      String.length (inputPassword s) = MAX_PASSWORD_LENGTH ->
      handle_key key s = s).
Proof.
  intros Hlen. split.
  - exact (bounded_run es s Hlen).
  - intros Hdig Hfull.
    destruct (is_digit_not_special key Hdig) as (Hz & Hh & Hs & _).
    unfold handle_key. rewrite Hz, Hh, Hs, Hdig, Hfull.
    now destruct (negb false && negb (isDoorOpen s)).
Qed.

Lemma full_state_reachable : reachable full_state.
Proof. exists nine_nines. vm_compute. reflexivity. Qed.

Lemma buffer_saturates_witness :
  inputPassword full_state = "99999999"
  /\ (String.length (inputPassword (run (press 2 2) full_state))
      <= MAX_PASSWORD_LENGTH)%nat
  /\ handle_key "9" full_state = full_state.
Proof.
  assert (Hfull : (String.length (inputPassword full_state)
                   <= MAX_PASSWORD_LENGTH)%nat)
    by (vm_compute; lia).
  destruct (buffer_saturates (press 2 2) full_state "9"%char Hfull)
    as [H1 H2].
  split; [reflexivity | split; [exact H1 | apply H2; reflexivity]].
Defined.

(* ================================================================== *)
(** * Submitting the credential *)
(* ================================================================== *)

Lemma check_lockout_unlocked (s : System) :
  isLockedOut s = false -> check_lockout s = s.
Proof. intros H. unfold check_lockout. now rewrite H. Qed.

Lemma check_autoclose_closed (s : System) :
  isDoorOpen s = false -> check_autoclose s = s.
Proof. intros H. unfold check_autoclose. now rewrite H. Qed.

Lemma refresh_countdown_closed (s : System) :
  isDoorOpen s = false -> refresh_countdown s = s.
Proof. intros H. unfold refresh_countdown. now rewrite H. Qed.

(** With the door closed and no lockout the timer checks do nothing. *)
Lemma timer_checks_entering (s : System) :
  isDoorOpen s = false -> isLockedOut s = false -> timer_checks s = s.
Proof.
  intros Hdoor Hlock. unfold timer_checks. cbv zeta.
  rewrite check_lockout_unlocked by assumption.
  rewrite check_autoclose_closed by assumption.
  now apply refresh_countdown_closed.
Qed.

Lemma checkPassword_right (s : System) :
  isLockedOut s = false ->
  inputPassword s = PASSWORD ->
  let s' := checkPassword s in
  isDoorOpen s' = true /\ lockControl s' = true
  /\ failedAttempts s' = 0 /\ isLockedOut s' = false
  /\ inputPassword s' = "".
Proof.
  intros Hlock Hbuf. unfold checkPassword, openLock.
  rewrite Hlock, Hbuf, String.eqb_refl. simp. rewrite Hlock.
  repeat split.
Qed.

Lemma handle_key_submit_right (s : System) :
  isDoorOpen s = false ->
  isLockedOut s = false ->
  inputPassword s = PASSWORD ->
  let s' := handle_key "#" s in
  isDoorOpen s' = true /\ lockControl s' = true
  /\ failedAttempts s' = 0 /\ isLockedOut s' = false
  /\ inputPassword s' = "".
Proof.
  intros Hdoor Hlock Hbuf.
  unfold handle_key. rewrite Hdoor, Hbuf.
  exact (checkPassword_right s Hlock Hbuf).
Qed.

(** C2.  In every state the program can be in, and in every state with
    the door closed, that is not locked out and whose buffer equals the
    credential, pressing ['#'] opens the door: the door-open flag is set,
    the relay is energised and the failed-attempt counter is 0, whatever
    the counter was before.  This holds of the key dispatch and of the
    whole loop iteration that delivers the ['#']. *)
Theorem correct_code_opens_door (s : System) :
  reachable s \/ isDoorOpen s = false ->
  isLockedOut s = false ->
  failedAttempts s < MAX_FAILED_ATTEMPTS ->
  inputPassword s = PASSWORD ->
  (let s' := handle_key "#" s in
   isDoorOpen s' = true /\ lockControl s' = true
   /\ failedAttempts s' = 0 /\ isLockedOut s' = false)
  /\ (forall sw dt,
         delivered sw dt s = "#"%char ->
         let s' := loop_body sw dt s in
         isDoorOpen s' = true /\ lockControl s' = true
         /\ failedAttempts s' = 0 /\ isLockedOut s' = false).
Proof.
  intros Hs Hlock _ Hbuf.
  assert (Hdoor : isDoorOpen s = false).
  { destruct Hs as [Hr | Hd]; [|exact Hd].
    destruct (Inv_reachable s Hr) as (Hopen & _).
    destruct (isDoorOpen s); [|reflexivity].
    destruct (Hopen eq_refl) as (_ & Hempty & _).
    rewrite Hempty in Hbuf. discriminate Hbuf. }
  split.
  - cbv zeta.
    destruct (handle_key_submit_right s Hdoor Hlock Hbuf)
      as (H1 & H2 & H3 & H4 & _).
    now repeat split.
  - intros sw dt Hkey. cbv zeta. rewrite loop_body_dispatch, Hkey.
    destruct (handle_key_submit_right (at_dispatch sw dt s))
      as (H1 & H2 & H3 & H4 & _).
    + rewrite at_dispatch_isDoorOpen.
      now rewrite timer_checks_entering.
    + rewrite at_dispatch_isLockedOut.
      now rewrite timer_checks_entering.
    + rewrite at_dispatch_inputPassword.
      now rewrite timer_checks_entering.
    + now repeat split.
Qed.

Lemma correct_code_opens_door_witness :
  let s := run (press 0 0 ++ press 0 1 ++ press 0 2 ++ press 1 0)%list boot in
  inputPassword s = "1234"
  /\ delivered (hold 3 2) 0 s = "#"%char
  /\ isDoorOpen (loop_body (hold 3 2) 0 s) = true
  /\ lockControl (loop_body (hold 3 2) 0 s) = true
  /\ failedAttempts (loop_body (hold 3 2) 0 s) = 0.
Proof.
  cbv zeta.
  split; [vm_compute; reflexivity|].
  split; [vm_compute; reflexivity|].
  destruct (correct_code_opens_door
              (run (press 0 0 ++ press 0 1 ++ press 0 2 ++ press 1 0)%list boot))
    as [_ Hloop].
  - left. eexists. reflexivity.
  - vm_compute. reflexivity.
  - vm_compute. reflexivity.
  - vm_compute. reflexivity.
  - destruct (Hloop (hold 3 2) 0%N) as (H1 & H2 & H3 & _).
    + vm_compute. reflexivity.
    + now repeat split.
Defined.

(* ================================================================== *)
(** * The clock only moves forward *)
(* ================================================================== *)

Lemma clock_handle_key (key : ascii) (s : System) :
  clock s <= clock (handle_key key s).
Proof.
  unfold handle_key, checkPassword, handleSpecialKeys, openLock.
  branch; simp; lia.
Qed.

Lemma clock_timer_checks (s : System) : clock (timer_checks s) = clock s.
Proof.
  unfold timer_checks, check_lockout, check_autoclose, refresh_countdown,
    resetSystem, closeLock.
  branch; simp; reflexivity.
Qed.

Lemma clock_keypad_getKey (sw : Switches) (s : System) :
  clock s <= clock (snd (keypad_getKey sw s)).
Proof.
  rewrite keypad_getKey_state. cbv zeta.
  destruct (getKey_cases sw (clock s) (keypad s)) as (_ & _ & _ & H).
  destruct (Keypad.getKey sw (clock s) (keypad s)) as [[k now] kp].
  exact H.
Qed.

Lemma clock_at_dispatch (sw : Switches) (dt : N) (s : System) :
  clock s + Z.of_N dt <= clock (at_dispatch sw dt s).
Proof.
  unfold at_dispatch.
  pose proof (clock_keypad_getKey sw
                (timer_checks (set_clock (clock s + Z.of_N dt) s))) as H.
  rewrite clock_timer_checks in H. exact H.
Qed.

Lemma clock_loop_body (sw : Switches) (dt : N) (s : System) :
  clock (at_dispatch sw dt s) <= clock (loop_body sw dt s).
Proof.
  rewrite loop_body_dispatch.
  pose proof (clock_handle_key (delivered sw dt s) (at_dispatch sw dt s)).
  cbn [sleep_for clock set_clock]. lia.
Qed.

Lemma clock_step (e : Event) (s : System) : clock s <= clock (step e s).
Proof.
  destruct e as [sw dt|]; cbn [step].
  - pose proof (clock_at_dispatch sw dt s).
    pose proof (clock_loop_body sw dt s). lia.
  - unfold ledFlashISR. destruct (isDoorOpen s); cbn; lia.
Qed.

Lemma clock_run (es : list Event) (s : System) : clock s <= clock (run es s).
Proof.
  revert s. induction es as [|e es IH]; intros s; cbn [run fold_left].
  - lia.
  - pose proof (clock_step e s). specialize (IH (step e s)).
    unfold run in IH. lia.
Qed.

(* ================================================================== *)
(** * Lockout *)
(* ================================================================== *)

(** A lockout timer that has been running from zero since [t0] reads
    less than the lockout time while the clock is short of
    [t0 + LOCKOUT_TIME_US]. *)
Lemma read_ms_running (t0 now : Z) :
  t0 <= now < t0 + LOCKOUT_TIME_US ->
  Mbed.read_ms now {| Mbed._running := true; Mbed._start := t0;
                      Mbed._time := 0 |}
  < LOCKOUT_TIME_MS.
Proof.
  unfold LOCKOUT_TIME_US, LOCKOUT_TIME_MS, Mbed.read_ms, Mbed.read_us,
    Mbed.slicetime, Mbed.to_int. cbn [Mbed._running Mbed._start Mbed._time].
  change Mbed.two64 with 18446744073709551616.
  change Mbed.two32 with 4294967296.
  change Mbed.two31 with 2147483648.
  intros H. rewrite Z.add_0_l, Z.mod_mod by lia.
  rewrite (Z.mod_small (now - t0)) by lia.
  assert (0 <= (now - t0) / 1000 < 30000)
    by (split; [apply Z.div_pos; lia | apply Z.div_lt_upper_bound; lia]).
  rewrite Z.mod_small by lia. lia.
Qed.

(** What the dispatch of a key can and cannot do during lockout. *)
Lemma handle_key_locked (key : ascii) (s : System) :
  isLockedOut s = true ->
  isLockedOut (handle_key key s) = true
  /\ isDoorOpen (handle_key key s) = isDoorOpen s
  /\ lockoutTimer (handle_key key s) = lockoutTimer s
  /\ (is_digit key = false -> key <> "*"%char ->
      inputPassword (handle_key key s) = inputPassword s)
  /\ (key <> "C"%char -> failedAttempts (handle_key key s) = failedAttempts s).
Proof.
  intros Hlock.
  unfold handle_key, checkPassword, handleSpecialKeys. rewrite Hlock.
  branch; simp; norm_hyps;
    repeat match goal with
           | H : (_ =? _)%char = true |- _ => apply Ascii.eqb_eq in H
           end;
    subst; repeat split; try assumption; try reflexivity;
    try discriminate; try congruence.
Qed.

Lemma handle_key_locked_submit (s : System) :
  isLockedOut s = true -> control (handle_key "#" s) = control s.
Proof.
  intros Hlock. unfold handle_key, checkPassword. rewrite Hlock.
  cbn [Ascii.eqb Bool.eqb andb negb zero].
  branch; simp; reflexivity.
Qed.

(** Before the lockout time has run out the expiry check does nothing. *)
Lemma check_lockout_early (t0 : Z) (s : System) :
  locked_since t0 s ->
  clock s < t0 + LOCKOUT_TIME_US ->
  check_lockout s = s.
Proof.
  intros (Hlock & Htimer & Hle) Hearly. unfold check_lockout.
  rewrite Hlock, Htimer. cbn [andb].
  pose proof (read_ms_running t0 (clock s) (conj Hle Hearly)) as Hread.
  destruct (_ >=? _) eqn:Hge; [|reflexivity].
  rewrite Z.geb_leb in Hge. apply Z.leb_le in Hge. lia.
Qed.

Lemma check_autoclose_lockout (s : System) :
  isLockedOut (check_autoclose s) = isLockedOut s
  /\ lockoutTimer (check_autoclose s) = lockoutTimer s
  /\ clock (check_autoclose s) = clock s.
Proof. unfold check_autoclose, closeLock. branch; simp; now repeat split. Qed.

Lemma refresh_countdown_lockout (s : System) :
  isLockedOut (refresh_countdown s) = isLockedOut s
  /\ lockoutTimer (refresh_countdown s) = lockoutTimer s
  /\ clock (refresh_countdown s) = clock s.
Proof. unfold refresh_countdown. branch; simp; now repeat split. Qed.

Lemma locked_since_at_dispatch (t0 : Z) (sw : Switches) (dt : N) (s : System) :
  locked_since t0 s ->
  clock s + Z.of_N dt < t0 + LOCKOUT_TIME_US ->
  isLockedOut (at_dispatch sw dt s) = true
  /\ lockoutTimer (at_dispatch sw dt s) = lockoutTimer s.
Proof.
  intros (Hlock & Htimer & Hle) Hearly.
  rewrite at_dispatch_isLockedOut, at_dispatch_lockoutTimer.
  unfold timer_checks. cbv zeta.
  rewrite (check_lockout_early t0).
  - destruct (refresh_countdown_lockout
                (check_autoclose (set_clock (clock s + Z.of_N dt) s)))
      as (-> & -> & _).
    destruct (check_autoclose_lockout (set_clock (clock s + Z.of_N dt) s))
      as (-> & -> & _).
    now split.
  - repeat split; cbn [isLockedOut lockoutTimer clock set_clock];
      try assumption. lia.
  - cbn [clock set_clock]. lia.
Qed.

(** An iteration that ends before the lockout time has run out leaves
    the controller locked out, with the same timer. *)
Lemma locked_since_loop_body (t0 : Z) (sw : Switches) (dt : N) (s : System) :
  locked_since t0 s ->
  clock (loop_body sw dt s) < t0 + LOCKOUT_TIME_US ->
  locked_since t0 (loop_body sw dt s).
Proof.
  intros Hs Hearly.
  pose proof (clock_at_dispatch sw dt s) as Hc1.
  pose proof (clock_loop_body sw dt s) as Hc2.
  destruct (locked_since_at_dispatch t0 sw dt s Hs) as (Hl & Ht); [lia|].
  destruct Hs as (Hlock & Htimer & Hle).
  destruct (handle_key_locked (delivered sw dt s) (at_dispatch sw dt s) Hl)
    as (Hl' & _ & Ht' & _).
  rewrite loop_body_dispatch in *.
  repeat split; cbn [sleep_for isLockedOut lockoutTimer set_clock].
  - exact Hl'.
  - congruence.
  - lia.
Qed.

Lemma locked_since_step (t0 : Z) (e : Event) (s : System) :
  locked_since t0 s ->
  clock (step e s) < t0 + LOCKOUT_TIME_US ->
  locked_since t0 (step e s).
Proof.
  destruct e as [sw dt|]; cbn [step].
  - apply locked_since_loop_body.
  - intros Hs _. unfold ledFlashISR. now destruct (isDoorOpen s).
Qed.

(** The lockout outlasts every run that ends before its time is up. *)
Lemma locked_since_run (t0 : Z) (es : list Event) (s : System) :
  locked_since t0 s ->
  clock (run es s) < t0 + LOCKOUT_TIME_US ->
  locked_since t0 (run es s).
Proof.
  revert s. induction es as [|e es IH]; intros s Hs Hearly.
  - exact Hs.
  - cbn [run fold_left] in *. apply IH; [|exact Hearly].
    apply locked_since_step; [exact Hs|].
    pose proof (clock_run es (step e s)). unfold run in *. lia.
Qed.

(** During a lockout that is not over, with the door closed, the timer
    checks do nothing. *)
Lemma timer_checks_locked_early (t0 : Z) (s : System) :
  locked_since t0 s ->
  isDoorOpen s = false ->
  clock s < t0 + LOCKOUT_TIME_US ->
  timer_checks s = s.
Proof.
  intros Hs Hdoor Hearly. unfold timer_checks. cbv zeta.
  rewrite (check_lockout_early t0) by assumption.
  rewrite check_autoclose_closed by assumption.
  now apply refresh_countdown_closed.
Qed.

(** The admin key on a positive counter. *)
Lemma handle_key_admin_reset (s : System) :
  isDoorOpen s = false ->
  0 < failedAttempts s ->
  handle_key "C" s
  = updateLCD (sleep_for 2000
                 (lcd_printf "Attempts Reset"
                    (lcd_cls (set_failedAttempts 0 s)))).
Proof.
  intros Hdoor Hpos. apply Z.gtb_lt in Hpos.
  unfold handle_key, handleSpecialKeys. rewrite Hdoor.
  change (is_digit "C") with false.
  cbn [Ascii.eqb Bool.eqb andb orb negb zero]. now rewrite Hpos.
Qed.

Lemma locked_state_reachable : reachable locked_state.
Proof. exists three_wrong. vm_compute. reflexivity. Qed.

Lemma open_state_reachable : reachable open_state.
Proof. exists right_code. vm_compute. reflexivity. Qed.

(** C1 as stated fails.  In the locked-out state reached by three wrong
    submissions, the key "1" is appended to the buffer, and the key "C"
    clears the failed-attempt counter; the whole iteration that reads
    "1" ends with the buffer changed. *)
Lemma locked_out_keys_not_ignored :
  isLockedOut locked_state = true
  /\ isDoorOpen locked_state = false
  /\ inputPassword locked_state = ""
  /\ inputPassword (handle_key "1" locked_state) = "1"
  /\ failedAttempts locked_state = 3
  /\ failedAttempts (handle_key "C" locked_state) = 0
  /\ delivered (hold 0 0) 0 locked_state = "1"%char
  /\ isLockedOut (loop_body (hold 0 0) 0 locked_state) = true
  /\ inputPassword (loop_body (hold 0 0) 0 locked_state) = "1".
Proof. repeat split; vm_compute; reflexivity. Qed.

(** C1, amended.  While the controller is locked out no key changes the
    operating mode: after the dispatch of any key the locked-out flag is
    still set, the door-open flag is as before, and the lockout timer is
    untouched.  ['#'] changes nothing but the display (it shows the
    remaining time) and the clock.  Keys other than digits and ['*']
    leave the buffer as it is, and keys other than ['C'] leave the
    counter as it is.  The buffer does follow digits and ['*'], and the
    counter does follow ['C']: with the door closed, a digit is appended
    while there is room, ['*'] empties the buffer, and ['C'] sets a
    positive counter to 0. *)
Theorem locked_out_key_effects (s : System) (key : ascii) :
  isLockedOut s = true ->
  let s' := handle_key key s in
  isLockedOut s' = true
  /\ isDoorOpen s' = isDoorOpen s
  /\ lockoutTimer s' = lockoutTimer s
  /\ (key = "#"%char -> control s' = control s)
  /\ (is_digit key = false -> key <> "*"%char ->
      inputPassword s' = inputPassword s)
  /\ (key <> "C"%char -> failedAttempts s' = failedAttempts s)
  /\ (isDoorOpen s = false ->
      (is_digit key = true ->
       (String.length (inputPassword s) < MAX_PASSWORD_LENGTH)%nat ->
       inputPassword s' = inputPassword s ++ String key "")
      /\ (key = "*"%char -> inputPassword s' = "")
      /\ (key = "C"%char -> 0 < failedAttempts s -> failedAttempts s' = 0))
  /\ (forall t0 sw dt,
         locked_since t0 s ->
         isDoorOpen s = false ->
         delivered sw dt s = key ->
         clock (loop_body sw dt s) < t0 + LOCKOUT_TIME_US ->
         isLockedOut (loop_body sw dt s) = true
         /\ isDoorOpen (loop_body sw dt s) = false
         /\ (key = "#"%char ->
             inputPassword (loop_body sw dt s) = inputPassword s
             /\ failedAttempts (loop_body sw dt s) = failedAttempts s)).
Proof.
  intros Hlock. cbv zeta.
  destruct (handle_key_locked key s Hlock) as (H1 & H2 & H3 & H4 & H5).
  assert (Hloop : forall t0 sw dt,
             locked_since t0 s ->
             isDoorOpen s = false ->
             delivered sw dt s = key ->
             clock (loop_body sw dt s) < t0 + LOCKOUT_TIME_US ->
             isLockedOut (loop_body sw dt s) = true
             /\ isDoorOpen (loop_body sw dt s) = false
             /\ (key = "#"%char ->
                 inputPassword (loop_body sw dt s) = inputPassword s
                 /\ failedAttempts (loop_body sw dt s) = failedAttempts s)).
  { intros t0 sw dt Hs Hdoor Hkey Hearly.
    pose proof (clock_at_dispatch sw dt s) as Hc1.
    pose proof (clock_loop_body sw dt s) as Hc2.
    assert (Htc : timer_checks (set_clock (clock s + Z.of_N dt) s)
                  = set_clock (clock s + Z.of_N dt) s).
    { apply (timer_checks_locked_early t0).
      - destruct Hs as (Hl & Ht & Hle).
        repeat split; cbn [isLockedOut lockoutTimer clock set_clock];
          try assumption. lia.
      - exact Hdoor.
      - cbn [clock set_clock]. lia. }
    assert (Hl : isLockedOut (at_dispatch sw dt s) = true)
      by (rewrite at_dispatch_isLockedOut, Htc; exact Hlock).
    assert (Hd : isDoorOpen (at_dispatch sw dt s) = false)
      by (rewrite at_dispatch_isDoorOpen, Htc; exact Hdoor).
    destruct (handle_key_locked key (at_dispatch sw dt s) Hl)
      as (G1 & G2 & _).
    rewrite loop_body_dispatch, Hkey.
    cbn [sleep_for inputPassword failedAttempts isDoorOpen isLockedOut
         set_clock].
    split; [exact G1 | split; [congruence|]].
    intros ->.
    destruct (control_fields _ _
                (handle_key_locked_submit (at_dispatch sw dt s) Hl))
      as (F1 & F2 & _).
    rewrite F1, F2, at_dispatch_inputPassword, at_dispatch_failedAttempts,
      Htc.
    now split. }
  refine (conj H1 (conj H2 (conj H3 (conj _ (conj H4 (conj H5
            (conj _ Hloop))))))).
  { intros ->. now apply handle_key_locked_submit. }
  intros H. repeat split.
  - intros Hdig Hroom.
    destruct (is_digit_not_special key Hdig) as (Hz & Hh & Hs & _).
    apply Nat.ltb_lt in Hroom.
    unfold handle_key. rewrite Hz, Hh, Hs, Hdig, H, Hroom.
    cbn [negb andb]. now simp.
  - intros ->. unfold handle_key. rewrite H.
    cbn [Ascii.eqb Bool.eqb andb negb zero].
    branch; simp; [reflexivity|].
    destruct (inputPassword s); [reflexivity | discriminate].
  - intros -> Hpos. rewrite handle_key_admin_reset by assumption. now simp.
Qed.

Lemma locked_out_key_effects_witness :
  isLockedOut (handle_key "1" locked_state) = true
  /\ isDoorOpen (handle_key "1" locked_state) = isDoorOpen locked_state
  /\ control (handle_key "#" locked_state) = control locked_state.
Proof.
  assert (Hlock : isLockedOut locked_state = true) by reflexivity.
  destruct (locked_out_key_effects locked_state "1"%char Hlock)
    as (H1 & H2 & _).
  destruct (locked_out_key_effects locked_state "#"%char Hlock)
    as (_ & _ & _ & H4 & _).
  split; [exact H1 | split; [exact H2 | exact (H4 eq_refl)]].
Defined.

(* ================================================================== *)
(** * Auto-close and the key of the same iteration *)
(* ================================================================== *)

Lemma handle_key_door_open (key : ascii) (s : System) :
  isDoorOpen s = true -> handle_key key s = s.
Proof.
  intros Hdoor. unfold handle_key. rewrite Hdoor.
  now rewrite andb_false_r.
Qed.

Lemma handle_key_digit (key : ascii) (s : System) :
  isDoorOpen s = false ->
  is_digit key = true ->
  (String.length (inputPassword s) < MAX_PASSWORD_LENGTH)%nat ->
  handle_key key s
  = updateLCD (set_inputPassword (inputPassword s ++ String key "") s).
Proof.
  intros Hdoor Hdig Hroom.
  destruct (is_digit_not_special key Hdig) as (Hz & Hh & Hs & _).
  apply Nat.ltb_lt in Hroom.
  unfold handle_key. now rewrite Hz, Hh, Hs, Hdig, Hdoor, Hroom.
Qed.

(** The timer checks on an open door, by whether its time is up. *)
Lemma timer_checks_door_open (s : System) :
  isDoorOpen s = true ->
  isLockedOut s = false ->
  timer_checks s
  = if Mbed.read_ms (clock s) (doorTimer s) >=? OPEN_TIME_MS
    then updateLCD (closeLock s)
    else updateLCD s.
Proof.
  intros Hdoor Hlock.
  unfold timer_checks, check_lockout, check_autoclose, refresh_countdown.
  cbv zeta. rewrite Hlock. cbn [andb]. rewrite Hdoor. cbn [andb].
  destruct (_ >=? _).
  - now simp.
  - now rewrite Hdoor.
Qed.

(** C7 as stated fails.  The door is open and its time is up when the
    iteration starts; the key "1" is read in that iteration.  The door is
    closed first, and the key is then dispatched: it ends up in the
    buffer. *)
Lemma autoclose_then_key_is_dispatched :
  isDoorOpen open_state = true
  /\ inputPassword open_state = ""
  /\ delivered (hold 0 0) 10000000 open_state = "1"%char
  /\ isDoorOpen (at_dispatch (hold 0 0) 10000000 open_state) = false
  /\ isDoorOpen (loop_body (hold 0 0) 10000000 open_state) = false
  /\ inputPassword (loop_body (hold 0 0) 10000000 open_state) = "1".
Proof. repeat split; vm_compute; reflexivity. Qed.

(** C7, amended.  Every iteration runs the timer checks, then reads the
    keypad, then dispatches the key on the state the checks left.  When
    the door is open and its time is up at the check, the door is closed
    (flag cleared, relay released) before the key is read, and the key is
    then dispatched with the door closed, as in [EnteringPassword], not
    ignored: a digit, for one, is appended to the buffer.  When the time
    is not up, the key is ignored: buffer, counter and both flags end the
    iteration as they started it. *)
Theorem expiry_checked_before_dispatch
        (sw : Switches) (dt : N) (s : System) :
  isDoorOpen s = true ->
  isLockedOut s = false ->
  let now := clock s + Z.of_N dt in
  let key := delivered sw dt s in
  loop_body sw dt s = sleep_for 100 (handle_key key (at_dispatch sw dt s))
  /\ (OPEN_TIME_MS <= Mbed.read_ms now (doorTimer s) ->
      isDoorOpen (at_dispatch sw dt s) = false
      /\ lockControl (at_dispatch sw dt s) = false
      /\ (is_digit key = true ->
          (String.length (inputPassword s) < MAX_PASSWORD_LENGTH)%nat ->
          isDoorOpen (loop_body sw dt s) = false
          /\ inputPassword (loop_body sw dt s)
             = inputPassword s ++ String key ""))
  /\ (Mbed.read_ms now (doorTimer s) < OPEN_TIME_MS ->
      isDoorOpen (loop_body sw dt s) = true
      /\ isLockedOut (loop_body sw dt s) = false
      /\ inputPassword (loop_body sw dt s) = inputPassword s
      /\ failedAttempts (loop_body sw dt s) = failedAttempts s).
Proof.
  intros Hdoor Hlock now key. subst now key.
  split; [apply loop_body_dispatch|].
  pose proof (timer_checks_door_open
                (set_clock (clock s + Z.of_N dt) s) Hdoor Hlock) as Htc.
  cbn [clock doorTimer set_clock] in Htc.
  split.
  - intros Hup. apply Z.geb_le in Hup. rewrite Hup in Htc.
    assert (Hd : isDoorOpen (at_dispatch sw dt s) = false)
      by (rewrite at_dispatch_isDoorOpen, Htc, updateLCD_isDoorOpen;
          reflexivity).
    assert (Hb : inputPassword (at_dispatch sw dt s) = inputPassword s)
      by (rewrite at_dispatch_inputPassword, Htc, updateLCD_inputPassword;
          reflexivity).
    split; [exact Hd|]. split.
    + rewrite at_dispatch_lockControl, Htc, updateLCD_lockControl.
      reflexivity.
    + intros Hdig Hroom. rewrite loop_body_dispatch.
      rewrite handle_key_digit; [| exact Hd | exact Hdig | now rewrite Hb].
      cbn [sleep_for isDoorOpen inputPassword set_clock].
      rewrite updateLCD_isDoorOpen, updateLCD_inputPassword.
      cbn [isDoorOpen inputPassword set_inputPassword].
      rewrite Hd, Hb. now split.
  - intros Hearly.
    assert (Hge : (Mbed.read_ms (clock s + Z.of_N dt) (doorTimer s)
                   >=? OPEN_TIME_MS) = false).
    { rewrite Z.geb_leb. apply Z.leb_gt. exact Hearly. }
    rewrite Hge in Htc.
    assert (Hd : isDoorOpen (at_dispatch sw dt s) = true)
      by (rewrite at_dispatch_isDoorOpen, Htc, updateLCD_isDoorOpen;
          exact Hdoor).
    rewrite loop_body_dispatch, handle_key_door_open by exact Hd.
    cbn [sleep_for isDoorOpen isLockedOut inputPassword failedAttempts
         set_clock].
    rewrite at_dispatch_isDoorOpen, at_dispatch_isLockedOut,
      at_dispatch_inputPassword, at_dispatch_failedAttempts, Htc.
    rewrite updateLCD_isDoorOpen, updateLCD_isLockedOut,
      updateLCD_inputPassword, updateLCD_failedAttempts.
    now repeat split.
Qed.

Lemma expiry_checked_before_dispatch_witness :
  isDoorOpen (at_dispatch (hold 0 0) 10000000 open_state) = false
  /\ inputPassword (loop_body (hold 0 0) 10000000 open_state) = "1"
  /\ inputPassword (loop_body (hold 0 0) 0 open_state) = "".
Proof.
  assert (Hdoor : isDoorOpen open_state = true) by reflexivity.
  assert (Hlock : isLockedOut open_state = false) by reflexivity.
  destruct (expiry_checked_before_dispatch (hold 0 0) 10000000 open_state
              Hdoor Hlock) as (_ & Hup & _).
  destruct (expiry_checked_before_dispatch (hold 0 0) 0 open_state
              Hdoor Hlock) as (_ & _ & Hearly).
  destruct Hup as (H1 & _ & H3); [vm_compute; discriminate|].
  destruct H3 as (_ & H4); [reflexivity | vm_compute; lia |].
  destruct Hearly as (_ & _ & H5 & _); [vm_compute; reflexivity|].
  split; [exact H1 | split; [exact H4 | exact H5]].
Defined.

(* ================================================================== *)
(** * Wrong submissions and entry into lockout *)
(* ================================================================== *)

Lemma string_nonempty_length (b : string) :
  b <> "" -> (0 <? String.length b)%nat = true.
Proof. destruct b; [congruence | reflexivity]. Qed.

Lemma timer_restarted (now : Z) (t : Mbed.Timer) :
  Mbed.start now (Mbed.reset now t)
  = {| Mbed._running := true; Mbed._start := now; Mbed._time := 0 |}.
Proof. unfold Mbed.start, Mbed.reset. cbn. now destruct (Mbed._running t). Qed.

(** A wrong submission in [EnteringPassword]: the counter goes up by
    one, the buffer is emptied, and the lockout starts exactly when the
    counter reaches the limit, two seconds into the call. *)
Lemma handle_key_submit_wrong (s : System) :
  entering s ->
  inputPassword s <> "" ->
  inputPassword s <> PASSWORD ->
  failedAttempts s < 2147483647 ->
  let s' := handle_key "#" s in
  isDoorOpen s' = false
  /\ failedAttempts s' = failedAttempts s + 1
  /\ inputPassword s' = ""
  /\ clock s <= clock s'
  /\ (failedAttempts s + 1 < MAX_FAILED_ATTEMPTS -> isLockedOut s' = false)
  /\ (MAX_FAILED_ATTEMPTS <= failedAttempts s + 1 ->
      locked_since (clock s + 2000000) s').
Proof.
  intros (Hdoor & Hlock) Hne Hwrong Hint. cbv zeta.
  apply string_nonempty_length in Hne.
  apply String.eqb_neq in Hwrong.
  unfold handle_key, checkPassword. rewrite Hdoor, Hne, Hlock, Hwrong.
  cbn [Ascii.eqb Bool.eqb andb negb zero]. cbv zeta.
  cbn [failedAttempts set_failedAttempts lcd_cls lcd_printf lcd_locate
       set_lcd].
  rewrite (int_succ_small _ Hint).
  unfold locked_since.
  destruct (failedAttempts s + 1 >=? MAX_FAILED_ATTEMPTS) eqn:Hge;
    rewrite Z.geb_leb in Hge;
    [apply Z.leb_le in Hge | apply Z.leb_gt in Hge];
    simp; rewrite ?timer_restarted;
    repeat split; try assumption; try reflexivity; try lia;
    intros; try assumption; try lia.
Qed.

(** Any other key in [EnteringPassword], the admin key apart, leaves the
    mode and the counter as they are. *)
Lemma handle_key_entering_other (key : ascii) (s : System) :
  entering s ->
  key <> "C"%char ->
  (key = "#"%char -> inputPassword s = "") ->
  entering (handle_key key s)
  /\ failedAttempts (handle_key key s) = failedAttempts s.
Proof.
  intros (Hdoor & Hlock) HC Hempty.
  unfold entering, handle_key, checkPassword, handleSpecialKeys.
  rewrite Hdoor, Hlock.
  branch; simp; norm_hyps;
    repeat match goal with
           | H : (_ =? _)%char = true |- _ => apply Ascii.eqb_eq in H
           end;
    try (now repeat split); try congruence.
  all: subst key; specialize (Hempty eq_refl);
    match goal with
    | H : (0 < String.length _)%nat |- _ =>
        rewrite Hempty in H; cbn in H; lia
    end.
Qed.

Lemma entering_at_dispatch (sw : Switches) (dt : N) (s : System) :
  entering s ->
  entering (at_dispatch sw dt s)
  /\ failedAttempts (at_dispatch sw dt s) = failedAttempts s
  /\ inputPassword (at_dispatch sw dt s) = inputPassword s.
Proof.
  intros (Hdoor & Hlock). unfold entering.
  rewrite at_dispatch_isDoorOpen, at_dispatch_isLockedOut,
    at_dispatch_failedAttempts, at_dispatch_inputPassword.
  rewrite timer_checks_entering by assumption.
  now repeat split.
Qed.

Lemma submitted_some (sw : Switches) (dt : N) (s : System) (b : string) :
  submitted sw dt s = Some b ->
  delivered sw dt s = "#"%char
  /\ inputPassword (at_dispatch sw dt s) = b
  /\ b <> "".
Proof.
  unfold submitted. cbv zeta.
  destruct (Ascii.eqb (delivered sw dt s) "#") eqn:Hk; [|discriminate].
  destruct (isDoorOpen (at_dispatch sw dt s)); [discriminate|].
  cbn [negb andb].
  destruct (inputPassword (at_dispatch sw dt s)) eqn:Hb; [discriminate|].
  cbn. intros [= <-]. apply Ascii.eqb_eq in Hk.
  repeat split; [exact Hk | discriminate].
Qed.

Lemma submitted_none (sw : Switches) (dt : N) (s : System) :
  submitted sw dt s = None ->
  isDoorOpen (at_dispatch sw dt s) = false ->
  delivered sw dt s = "#"%char ->
  inputPassword (at_dispatch sw dt s) = "".
Proof.
  unfold submitted. cbv zeta. intros Hnone Hdoor Hk.
  rewrite Hk, Hdoor in Hnone. cbn [Ascii.eqb Bool.eqb negb andb] in Hnone.
  destruct (inputPassword (at_dispatch sw dt s)); [reflexivity|].
  discriminate Hnone.
Qed.

Lemma locked_since_sleep_for (t0 ms : Z) (s : System) :
  0 <= ms -> locked_since t0 s -> locked_since t0 (sleep_for ms s).
Proof.
  intros Hms (Hl & Ht & Hle).
  repeat split; cbn [sleep_for isLockedOut lockoutTimer clock set_clock];
    try assumption. lia.
Qed.

(** Starting in [EnteringPassword] with the counter below the limit:
    if no ['C'] is read, every buffer submitted is wrong, and there are
    enough submissions to bring the counter to the limit, then the run
    passes through the submission that starts the lockout. *)
Lemma lockout_entry (es : list Event) :
  forall s,
    entering s ->
    0 <= failedAttempts s < MAX_FAILED_ATTEMPTS ->
    ~ In "C"%char (keys_read es s) ->
    Forall (fun b => b <> PASSWORD) (submissions es s) ->
    MAX_FAILED_ATTEMPTS
    <= failedAttempts s + Z.of_nat (List.length (submissions es s)) ->
    exists t0 es1 es2,
      es = (es1 ++ es2)%list
      /\ clock s <= t0
      /\ locked_since t0 (run es1 s)
      /\ failedAttempts s + Z.of_nat (List.length (submissions es1 s))
         = MAX_FAILED_ATTEMPTS.
Proof.
  induction es as [|e es IH]; intros s Hent Hcnt HnoC Hwrong Hmany.
  - cbn in Hmany. lia.
  - destruct e as [sw dt|].
    + (* a loop iteration *)
      cbn [keys_read submissions step] in HnoC, Hwrong, Hmany.
      assert (HkC : delivered sw dt s <> "C"%char)
        by (intros Heq; apply HnoC; left; exact Heq).
      assert (HnoC' : ~ In "C"%char (keys_read es (loop_body sw dt s)))
        by (intros Hin; apply HnoC; right; exact Hin).
      destruct (entering_at_dispatch sw dt s Hent) as (Hd & Hfa & Hbuf).
      pose proof (clock_at_dispatch sw dt s) as Hc1.
      pose proof (clock_loop_body sw dt s) as Hc2.
      destruct (submitted sw dt s) as [b|] eqn:Hsub.
      * (* it submits the buffer [b] *)
        destruct (submitted_some sw dt s b Hsub) as (Hk & Hb & Hne).
        cbn [app] in Hwrong, Hmany.
        pose proof (Forall_inv Hwrong) as Hbad.
        pose proof (Forall_inv_tail Hwrong) as Hwrong'.
        cbn [List.length] in Hmany.
        destruct (handle_key_submit_wrong (at_dispatch sw dt s) Hd)
          as (H1 & H2 & H3 & H4 & H5 & H6);
          [now rewrite Hb | now rewrite Hb
           | rewrite Hfa; unfold MAX_FAILED_ATTEMPTS in Hcnt; lia |].
        rewrite Hfa in H2, H5, H6.
        destruct (Z_lt_le_dec (failedAttempts s + 1) MAX_FAILED_ATTEMPTS)
          as [Hlt | Hge].
        -- (* the counter is still below the limit *)
           destruct (IH (loop_body sw dt s)) as (t0 & es1 & es2 & He & Ht & Hl & Hn).
           ++ rewrite loop_body_dispatch, Hk. split; [exact H1 | exact (H5 Hlt)].
           ++ rewrite loop_body_dispatch, Hk.
              cbn [sleep_for failedAttempts set_clock]. lia.
           ++ exact HnoC'.
           ++ exact Hwrong'.
           ++ rewrite loop_body_dispatch, Hk in *.
              cbn [sleep_for failedAttempts set_clock] in *. lia.
           ++ exists t0, (Iteration sw dt :: es1), es2.
              split; [|split; [|split]].
              ** cbn [app]. now rewrite He.
              ** lia.
              ** exact Hl.
              ** cbn [submissions step]. rewrite Hsub. cbn [app List.length].
                 rewrite loop_body_dispatch, Hk in Hn.
                 cbn [sleep_for failedAttempts set_clock] in Hn.
                 rewrite loop_body_dispatch, Hk. lia.
        -- (* the counter reaches the limit: lockout starts *)
           exists (clock (at_dispatch sw dt s) + 2000000),
             [Iteration sw dt], es.
           split; [|split; [|split]].
           ++ reflexivity.
           ++ lia.
           ++ cbn [run fold_left step]. rewrite loop_body_dispatch, Hk.
              apply locked_since_sleep_for; [lia | exact (H6 Hge)].
           ++ cbn [submissions step]. rewrite Hsub. cbn [app List.length]. lia.
      * (* it submits nothing *)
        cbn [app] in Hwrong, Hmany.
        destruct (handle_key_entering_other
                    (delivered sw dt s) (at_dispatch sw dt s) Hd HkC)
          as (Hent' & Hfa').
        { intros Hk. apply submitted_none; [exact Hsub | exact (proj1 Hd) | exact Hk]. }
        rewrite Hfa in Hfa'.
        destruct (IH (loop_body sw dt s)) as (t0 & es1 & es2 & He & Ht & Hl & Hn).
        -- rewrite loop_body_dispatch. exact Hent'.
        -- rewrite loop_body_dispatch.
           cbn [sleep_for failedAttempts set_clock]. lia.
        -- exact HnoC'.
        -- exact Hwrong.
        -- rewrite loop_body_dispatch in *.
           cbn [sleep_for failedAttempts set_clock] in *. lia.
        -- exists t0, (Iteration sw dt :: es1), es2.
           split; [|split; [|split]].
           ++ cbn [app]. now rewrite He.
           ++ lia.
           ++ exact Hl.
           ++ cbn [submissions step]. rewrite Hsub. cbn [app].
              rewrite loop_body_dispatch in Hn.
              cbn [sleep_for failedAttempts set_clock] in Hn.
              rewrite loop_body_dispatch. lia.
    + (* the LED ticker *)
      cbn [keys_read submissions step app] in HnoC, Hwrong, Hmany.
      assert (Hisr : entering (ledFlashISR s)
                     /\ failedAttempts (ledFlashISR s) = failedAttempts s
                     /\ clock (ledFlashISR s) = clock s).
      { unfold ledFlashISR, entering. destruct Hent as (Hd & Hl).
        rewrite Hd. now repeat split. }
      destruct Hisr as (Hent' & Hfa' & Hclk').
      destruct (IH (ledFlashISR s)) as (t0 & es1 & es2 & He & Ht & Hl & Hn);
        try assumption; try lia.
      exists t0, (LedTick :: es1), es2.
      split; [|split; [|split]].
      * cbn [app]. now rewrite He.
      * lia.
      * exact Hl.
      * cbn [submissions step app]. lia.
Qed.

(** C3 as stated fails.  From boot, [9 #], [9 #], [C], [9 #]: three
    buffers are submitted one after the other, none of them the
    credential, and the controller is locked out in no state of the run;
    it ends in [EnteringPassword] with the counter at 1, because the
    admin key set the counter back to 0 after the second submission. *)
Lemma admin_reset_restarts_count :
  submissions wrong_wrong_reset_wrong boot = ["9"; "9"; "9"]
  /\ existsb isLockedOut (visited wrong_wrong_reset_wrong boot) = false
  /\ isLockedOut (run wrong_wrong_reset_wrong boot) = false
  /\ failedAttempts (run wrong_wrong_reset_wrong boot) = 1.
Proof. repeat split; vm_compute; reflexivity. Qed.

(** C3, amended.  Take any state the program can be in (or any state
    with the counter within its bounds) that is in [EnteringPassword],
    and let [MAX_FAILED_ATTEMPTS] buffers be submitted, none of them the
    credential, with no ['C'] read in between (whatever other keys are
    pressed, whatever time passes).  Then the run passes through a state
    in which the controller is locked out, at the submission that brings
    the counter to the limit: the lockout timer has been running from
    zero since some clock value [t0] within the run.  From that state
    on, whatever events follow and whatever keys they carry, the
    locked-out flag is set in every state whose clock is short of
    [t0 + LOCKOUT_TIME_US]. *)
Theorem three_strikes_lockout (es : list Event) (s : System) :
  reachable s \/ 0 <= failedAttempts s < MAX_FAILED_ATTEMPTS ->
  entering s ->
  ~ In "C"%char (keys_read es s) ->
  Forall (fun b => b <> PASSWORD) (submissions es s) ->
  Z.of_nat (List.length (submissions es s)) = MAX_FAILED_ATTEMPTS ->
  exists t0 es1 es2,
    es = (es1 ++ es2)%list
    /\ failedAttempts s + Z.of_nat (List.length (submissions es1 s))
       = MAX_FAILED_ATTEMPTS
    /\ clock s <= t0 <= clock (run es1 s)
    /\ isLockedOut (run es1 s) = true
    /\ lockoutTimer (run es1 s)
       = {| Mbed._running := true; Mbed._start := t0; Mbed._time := 0 |}
    /\ forall more,
        clock (run more (run es1 s)) < t0 + LOCKOUT_TIME_US ->
        isLockedOut (run more (run es1 s)) = true.
Proof.
  intros Hs Hent HnoC Hwrong Hcount.
  assert (Hcnt : 0 <= failedAttempts s < MAX_FAILED_ATTEMPTS).
  { destruct Hs as [Hr | Hb]; [|exact Hb].
    destruct (Inv_reachable s Hr) as (_ & _ & Hrange & Hlim).
    split; [apply Hrange | apply Hlim, Hent]. }
  destruct (lockout_entry es s Hent Hcnt HnoC Hwrong)
    as (t0 & es1 & es2 & He & Ht & Hl & Hn); [lia|].
  exists t0, es1, es2.
  destruct Hl as (Hflag & Htimer & Hle).
  repeat split; try assumption; try lia.
  intros more Hearly.
  apply (locked_since_run t0 more (run es1 s)); [|exact Hearly].
  now repeat split.
Qed.

Lemma three_strikes_lockout_witness :
  exists t0 es1 es2,
    three_wrong = (es1 ++ es2)%list
    /\ failedAttempts boot + Z.of_nat (List.length (submissions es1 boot))
       = MAX_FAILED_ATTEMPTS
    /\ clock boot <= t0 <= clock (run es1 boot)
    /\ isLockedOut (run es1 boot) = true
    /\ lockoutTimer (run es1 boot)
       = {| Mbed._running := true; Mbed._start := t0; Mbed._time := 0 |}
    /\ forall more,
        clock (run more (run es1 boot)) < t0 + LOCKOUT_TIME_US ->
        isLockedOut (run more (run es1 boot)) = true.
Proof.
  apply (three_strikes_lockout three_wrong boot).
  - left. exists []. reflexivity.
  - split; reflexivity.
  - vm_compute. intros H.
    repeat (destruct H as [H | H]; [discriminate H|]). exact H.
  - vm_compute. repeat constructor; discriminate.
  - reflexivity.
Defined.

(* ================================================================== *)
(** * Inputs that are turned away *)
(* ================================================================== *)

(** The three rejected inputs at the dispatch, in any door-closed,
    unlocked state. *)
Lemma handle_key_rejected (s : System) (key : ascii) :
  isDoorOpen s = false ->
  isLockedOut s = false ->
  (key = "*"%char /\ inputPassword s = "")
  \/ (key = "#"%char /\ inputPassword s = "")
  \/ (is_digit key = true
      /\ String.length (inputPassword s) = MAX_PASSWORD_LENGTH) ->
  control (handle_key key s) = control s
  /\ (key = "*"%char ->
      lcd (handle_key key s)
      = (lcd s ++ [Cls; Printf "Nothing to Clear";
                   Cls; Printf "Enter Password:"; Locate 0 1])%list)
  /\ (key = "#"%char ->
      lcd (handle_key key s)
      = (lcd s ++ [Cls; Printf "Enter Password"; Locate 0 1; Printf "First!";
                   Cls; Printf "Enter Password:"; Locate 0 1])%list)
  /\ (is_digit key = true -> handle_key key s = s).
Proof.
  intros Hdoor Hlock [[-> Hbuf] | [[-> Hbuf] | [Hdig Hlen]]].
  - unfold handle_key. rewrite Hdoor, Hbuf. cbn - [updateLCD]. simp.
    rewrite updateLCD_lcd_entering by assumption.
    simp. rewrite Hbuf. cbn. rewrite <- !app_assoc.
    repeat split; auto; discriminate.
  - unfold handle_key. rewrite Hdoor, Hbuf. cbn - [updateLCD]. simp.
    rewrite updateLCD_lcd_entering by assumption.
    simp. rewrite Hbuf. cbn. rewrite <- !app_assoc.
    repeat split; auto; discriminate.
  - destruct (is_digit_not_special key Hdig) as (Hz & Hh & Hs & _).
    assert (Hkey : handle_key key s = s).
    { unfold handle_key. rewrite Hdoor, Hz, Hh, Hs, Hdig, Hlen. reflexivity. }
    rewrite Hkey.
    repeat split; try assumption; intros ->; discriminate Hdig.
Qed.

(** C8 as stated fails.  The buffer is full and the key "9" is read:
    the digit is rejected, and nothing at all is sent to the display,
    neither by the dispatch nor by the rest of the iteration. *)
Lemma full_buffer_digit_is_silent :
  isDoorOpen full_state = false
  /\ isLockedOut full_state = false
  /\ String.length (inputPassword full_state) = MAX_PASSWORD_LENGTH
  /\ delivered (hold 2 2) 0 full_state = "9"%char
  /\ inputPassword (loop_body (hold 2 2) 0 full_state)
     = inputPassword full_state
  /\ lcd (handle_key "9" full_state) = lcd full_state
  /\ lcd (loop_body (hold 2 2) 0 full_state) = lcd full_state.
Proof. repeat split; vm_compute; reflexivity. Qed.

(** C8, amended.  In [EnteringPassword] (door closed, not locked out) the three
    rejected inputs, ['*'] on an empty buffer, ['#'] on an empty buffer
    and a digit on a full buffer, change nothing but the display and the
    clock: after the dispatch the buffer, the counter, both mode flags,
    the timers, the relay and the indicator are as before, and so are
    buffer, counter and flags at the end of the loop iteration that read
    the key.  The two empty-buffer rejections put their message on the
    display and then redraw the prompt; the full-buffer rejection is
    silent. *)
Theorem rejected_input_no_state_change (s : System) (key : ascii) :
  isDoorOpen s = false ->
  isLockedOut s = false ->
  (key = "*"%char /\ inputPassword s = "")
  \/ (key = "#"%char /\ inputPassword s = "")
  \/ (is_digit key = true
      /\ String.length (inputPassword s) = MAX_PASSWORD_LENGTH) ->
  control (handle_key key s) = control s
  /\ inputPassword (handle_key key s) = inputPassword s
  /\ failedAttempts (handle_key key s) = failedAttempts s
  /\ isDoorOpen (handle_key key s) = false
  /\ isLockedOut (handle_key key s) = false
  /\ (key = "*"%char ->
      lcd (handle_key key s)
      = (lcd s ++ [Cls; Printf "Nothing to Clear";
                   Cls; Printf "Enter Password:"; Locate 0 1])%list)
  /\ (key = "#"%char ->
      lcd (handle_key key s)
      = (lcd s ++ [Cls; Printf "Enter Password"; Locate 0 1; Printf "First!";
                   Cls; Printf "Enter Password:"; Locate 0 1])%list)
  /\ (is_digit key = true -> handle_key key s = s)
  /\ (forall sw dt,
         delivered sw dt s = key ->
         inputPassword (loop_body sw dt s) = inputPassword s
         /\ failedAttempts (loop_body sw dt s) = failedAttempts s
         /\ isDoorOpen (loop_body sw dt s) = false
         /\ isLockedOut (loop_body sw dt s) = false).
Proof.
  intros Hdoor Hlock Hcase.
  destruct (handle_key_rejected s key Hdoor Hlock Hcase)
    as (Hctl & Hstar & Hhash & Hdig).
  destruct (control_fields _ _ Hctl) as (H1 & H2 & H3 & H4).
  assert (Hloop : forall sw dt,
             delivered sw dt s = key ->
             inputPassword (loop_body sw dt s) = inputPassword s
             /\ failedAttempts (loop_body sw dt s) = failedAttempts s
             /\ isDoorOpen (loop_body sw dt s) = false
             /\ isLockedOut (loop_body sw dt s) = false).
  { intros sw dt Hkey.
    destruct (entering_at_dispatch sw dt s (conj Hdoor Hlock))
      as ((Hd & Hl) & Hfa & Hbuf).
    destruct (handle_key_rejected (at_dispatch sw dt s) key Hd Hl)
      as (Hctl' & _); [rewrite Hbuf; exact Hcase|].
    destruct (control_fields _ _ Hctl') as (G1 & G2 & G3 & G4).
    rewrite loop_body_dispatch, Hkey.
    cbn [sleep_for inputPassword failedAttempts isDoorOpen isLockedOut
         set_clock].
    repeat split; congruence. }
  refine (conj Hctl (conj H1 (conj H2 (conj _ (conj _
            (conj Hstar (conj Hhash (conj Hdig Hloop)))))))); congruence.
Qed.

Lemma rejected_input_no_state_change_witness :
  control (handle_key "*" boot) = control boot
  /\ control (handle_key "#" boot) = control boot
  /\ handle_key "9" full_state = full_state.
Proof.
  split; [|split].
  - apply (rejected_input_no_state_change boot "*"%char);
      [reflexivity | reflexivity | left; split; reflexivity].
  - apply (rejected_input_no_state_change boot "#"%char);
      [reflexivity | reflexivity | right; left; split; reflexivity].
  - apply (rejected_input_no_state_change full_state "9"%char);
      [reflexivity | reflexivity | right; right; split; reflexivity
       | reflexivity].
Defined.

(* ================================================================== *)
(** * Every lockout the program reaches is a timed one *)
(* ================================================================== *)

Lemma handle_key_lock_entry (key : ascii) (s : System) :
  isLockedOut s = false ->
  isLockedOut (handle_key key s) = true ->
  locked_since (clock s + 2000000) (handle_key key s).
Proof.
  intros Hlock. unfold locked_since, handle_key, checkPassword,
    handleSpecialKeys, openLock.
  rewrite Hlock.
  branch; simp; rewrite ?timer_restarted; intros Hl;
    try congruence; repeat split; try reflexivity; lia.
Qed.

Lemma handle_key_empty_stays_unlocked (key : ascii) (s : System) :
  isLockedOut s = false ->
  inputPassword s = "" ->
  isLockedOut (handle_key key s) = false.
Proof.
  intros Hlock Hbuf. unfold handle_key, checkPassword, handleSpecialKeys,
    openLock.
  rewrite Hlock, Hbuf. cbn [String.length Nat.ltb Nat.leb].
  branch; simp; congruence.
Qed.

Lemma check_lockout_cases (s : System) :
  check_lockout s = s
  \/ (isLockedOut s = true /\ check_lockout s = resetSystem s).
Proof.
  unfold check_lockout. destruct (isLockedOut s); [|now left].
  cbn [andb]. destruct (_ >=? _); [right; now split | now left].
Qed.

Lemma resetSystem_fields (s : System) :
  isLockedOut (resetSystem s) = false
  /\ inputPassword (resetSystem s) = ""
  /\ isDoorOpen (resetSystem s) = isDoorOpen s.
Proof. unfold resetSystem. simp. now repeat split. Qed.

Lemma timed_lockout_loop_body (sw : Switches) (dt : N) (s : System) :
  Inv s ->
  (isLockedOut s = true -> exists t0, locked_since t0 s) ->
  isLockedOut (loop_body sw dt s) = true ->
  exists t0, locked_since t0 (loop_body sw dt s).
Proof.
  intros (Hopen & _) Htimed Hlocked.
  pose proof (clock_at_dispatch sw dt s) as Hc1.
  set (s0 := set_clock (clock s + Z.of_N dt) s) in *.
  rewrite loop_body_dispatch in *.
  cbn [sleep_for isLockedOut set_clock] in Hlocked.
  destruct (isLockedOut s) eqn:Hl.
  - (* locked out when the iteration starts *)
    destruct (Htimed eq_refl) as (t0 & Hs).
    assert (Hdoor : isDoorOpen s = false).
    { destruct (isDoorOpen s); [|reflexivity].
      now destruct (Hopen eq_refl). }
    destruct (check_lockout_cases s0) as [Hsame | (_ & Hreset)].
    + (* the lockout is not over *)
      assert (Htc : timer_checks s0 = s0).
      { unfold timer_checks. cbv zeta. rewrite Hsame.
        rewrite check_autoclose_closed by exact Hdoor.
        now apply refresh_countdown_closed. }
      assert (Hld : isLockedOut (at_dispatch sw dt s) = true)
        by (rewrite at_dispatch_isLockedOut; fold s0; rewrite Htc; exact Hl).
      destruct (handle_key_locked (delivered sw dt s) _ Hld)
        as (G1 & _ & G3 & _).
      pose proof (clock_handle_key (delivered sw dt s) (at_dispatch sw dt s)).
      destruct Hs as (_ & Ht & Hle).
      exists t0. repeat split;
        cbn [sleep_for isLockedOut lockoutTimer clock set_clock].
      * exact G1.
      * rewrite G3, at_dispatch_lockoutTimer. fold s0. rewrite Htc. exact Ht.
      * lia.
    + (* the lockout ends in this iteration *)
      destruct (resetSystem_fields s0) as (R1 & R2 & R3).
      assert (Htc : timer_checks s0 = resetSystem s0).
      { unfold timer_checks. cbv zeta. rewrite Hreset.
        rewrite check_autoclose_closed by (rewrite R3; exact Hdoor).
        apply refresh_countdown_closed. rewrite R3. exact Hdoor. }
      rewrite (handle_key_empty_stays_unlocked _ (at_dispatch sw dt s))
        in Hlocked.
      * discriminate Hlocked.
      * rewrite at_dispatch_isLockedOut. fold s0. now rewrite Htc.
      * rewrite at_dispatch_inputPassword. fold s0. now rewrite Htc.
  - (* not locked out when the iteration starts *)
    assert (Hld : isLockedOut (at_dispatch sw dt s) = false).
    { rewrite at_dispatch_isLockedOut. fold s0. unfold timer_checks.
      cbv zeta.
      destruct (refresh_countdown_lockout (check_autoclose (check_lockout s0)))
        as (-> & _).
      destruct (check_autoclose_lockout (check_lockout s0)) as (-> & _).
      rewrite check_lockout_unlocked; exact Hl. }
    exists (clock (at_dispatch sw dt s) + 2000000).
    apply locked_since_sleep_for; [lia|].
    now apply handle_key_lock_entry.
Qed.

(** In every state reached from boot in which the controller is locked
    out, the lockout timer has been running from zero since some moment
    of the run. *)
Lemma timed_lockout_run (es : list Event) :
  forall s,
    Inv s ->
    (isLockedOut s = true -> exists t0, locked_since t0 s) ->
    isLockedOut (run es s) = true ->
    exists t0, locked_since t0 (run es s).
Proof.
  induction es as [|e es IH]; intros s HI Htimed Hlocked.
  - now apply Htimed.
  - cbn [run fold_left] in *. apply IH; [now apply Inv_step | | exact Hlocked].
    destruct e as [sw dt|]; cbn [step].
    + now apply timed_lockout_loop_body.
    + unfold ledFlashISR. destruct (isDoorOpen s); exact Htimed.
Qed.

Lemma reachable_locked_since (s : System) :
  reachable s ->
  isLockedOut s = true ->
  exists t0, locked_since t0 s.
Proof.
  intros [es ->]. apply timed_lockout_run; [apply Inv_boot|].
  intros H. discriminate H.
Qed.

(* ================================================================== *)
(** * The admin key during lockout *)
(* ================================================================== *)

(** C10.  With the door closed (so that keys are dispatched) and a
    positive failed-attempt counter, the key ['C'] sets the counter to 0
    and leaves the locked-out flag and the lockout timer as they were,
    locked out or not.  During a lockout that has been running since
    [t0], the iteration that reads ['C'] ends with the counter at 0, and
    the controller is still locked out after that iteration and any
    further events, as long as the clock is short of
    [t0 + LOCKOUT_TIME_US].  Every locked-out state the program reaches
    has such a [t0]. *)
Theorem admin_reset_keeps_lockout (s : System) :
  isDoorOpen s = false ->
  0 < failedAttempts s ->
  (let s' := handle_key "C" s in
   failedAttempts s' = 0
   /\ isLockedOut s' = isLockedOut s
   /\ lockoutTimer s' = lockoutTimer s)
  /\ (forall t0 sw dt es,
         locked_since t0 s ->
         delivered sw dt s = "C"%char ->
         clock (run (Iteration sw dt :: es) s) < t0 + LOCKOUT_TIME_US ->
         failedAttempts (loop_body sw dt s) = 0
         /\ isLockedOut (loop_body sw dt s) = true
         /\ isLockedOut (run (Iteration sw dt :: es) s) = true)
  /\ (reachable s -> isLockedOut s = true -> exists t0, locked_since t0 s).
Proof.
  intros Hdoor Hpos.
  refine ((fun H => conj (proj1 H)
                         (conj (proj2 H) (reachable_locked_since s))) _).
  assert (Hkey : forall x, isDoorOpen x = false -> 0 < failedAttempts x ->
                           failedAttempts (handle_key "C" x) = 0
                           /\ isLockedOut (handle_key "C" x) = isLockedOut x
                           /\ lockoutTimer (handle_key "C" x) = lockoutTimer x).
  { intros x Hd Hp. rewrite handle_key_admin_reset by assumption.
    simp. now repeat split. }
  split; [exact (Hkey s Hdoor Hpos)|].
  intros t0 sw dt es Hs HC Hearly.
  pose proof (clock_run es (loop_body sw dt s)) as Hmono.
  cbn [run fold_left step] in Hearly. unfold run in Hmono.
  assert (Hbody : clock (loop_body sw dt s) < t0 + LOCKOUT_TIME_US) by lia.
  pose proof (locked_since_loop_body t0 sw dt s Hs Hbody) as Hs1.
  pose proof (locked_since_run t0 es _ Hs1 Hearly) as (Hfinal & _).
  pose proof (clock_at_dispatch sw dt s) as Hc1.
  pose proof (clock_loop_body sw dt s) as Hc2.
  assert (Hdisp :
            isDoorOpen (timer_checks (set_clock (clock s + Z.of_N dt) s))
            = false
            /\ failedAttempts (timer_checks (set_clock (clock s + Z.of_N dt) s))
               = failedAttempts s).
  { unfold timer_checks. cbv zeta. rewrite (check_lockout_early t0).
    - rewrite check_autoclose_closed by exact Hdoor.
      rewrite refresh_countdown_closed by exact Hdoor.
      now split.
    - destruct Hs as (Hl & Ht & Hle).
      repeat split; cbn [isLockedOut lockoutTimer clock set_clock];
        try assumption. lia.
    - cbn [clock set_clock]. lia. }
  split; [|split; [exact (proj1 Hs1) | exact Hfinal]].
  rewrite loop_body_dispatch, HC. cbn [sleep_for failedAttempts set_clock].
  apply Hkey.
  - (* the door is still closed at dispatch *)
    rewrite at_dispatch_isDoorOpen. exact (proj1 Hdisp).
  - (* and the counter is as it was *)
    rewrite at_dispatch_failedAttempts. now rewrite (proj2 Hdisp).
Qed.

Lemma admin_reset_keeps_lockout_witness :
  failedAttempts locked_state = 3
  /\ failedAttempts (loop_body (hold 2 3) 0 locked_state) = 0
  /\ isLockedOut (run (Iteration (hold 2 3) 0 :: press 3 2) locked_state)
     = true.
Proof.
  split; [reflexivity|].
  assert (Hdoor : isDoorOpen locked_state = false) by reflexivity.
  assert (Hpos : 0 < failedAttempts locked_state) by reflexivity.
  destruct (admin_reset_keeps_lockout locked_state Hdoor Hpos)
    as (_ & Hrun & _).
  destruct (Hrun 10000410 (hold 2 3) 0%N (press 3 2)) as (H1 & _ & H3).
  - repeat split; vm_compute; congruence.
  - vm_compute. reflexivity.
  - vm_compute. reflexivity.
  - split; [exact H1 | exact H3].
Defined.

(* ================================================================== *)
(** * Timers that run from zero *)
(* ================================================================== *)

Lemma read_ms_from_zero (t0 now : Z) :
  t0 <= now < t0 + TIMER_RANGE_US ->
  Mbed.read_ms now {| Mbed._running := true; Mbed._start := t0;
                      Mbed._time := 0 |}
  = (now - t0) / 1000.
Proof.
  unfold TIMER_RANGE_US, Mbed.read_ms, Mbed.read_us, Mbed.slicetime,
    Mbed.to_int. cbn [Mbed._running Mbed._start Mbed._time].
  change Mbed.two64 with 18446744073709551616.
  change Mbed.two32 with 4294967296.
  change Mbed.two31 with 2147483648.
  intros H. rewrite Z.add_0_l, Z.mod_mod by lia.
  rewrite (Z.mod_small (now - t0)) by lia.
  assert (0 <= (now - t0) / 1000 < 2147483648)
    by (split; [apply Z.div_pos; lia | apply Z.div_lt_upper_bound; lia]).
  rewrite Z.mod_small by lia. lia.
Qed.

Lemma read_ms_before (t0 now limit : Z) :
  0 <= limit <= 2147483647 ->
  t0 <= now < t0 + limit * 1000 ->
  (Mbed.read_ms now {| Mbed._running := true; Mbed._start := t0;
                       Mbed._time := 0 |} >=? limit) = false.
Proof.
  intros Hl H. rewrite read_ms_from_zero
    by (unfold TIMER_RANGE_US; change Mbed.two31 with 2147483648; lia).
  rewrite Z.geb_leb. apply Z.leb_gt.
  apply Z.div_lt_upper_bound; lia.
Qed.

Lemma read_ms_after (t0 now limit : Z) :
  0 <= limit ->
  t0 + limit * 1000 <= now < t0 + TIMER_RANGE_US ->
  (Mbed.read_ms now {| Mbed._running := true; Mbed._start := t0;
                       Mbed._time := 0 |} >=? limit) = true.
Proof.
  intros Hl H. rewrite read_ms_from_zero by lia.
  rewrite Z.geb_leb. apply Z.leb_le.
  apply Z.div_le_lower_bound; lia.
Qed.

(* ================================================================== *)
(** * The door-open window *)
(* ================================================================== *)

Lemma timer_checks_open_early (t1 : Z) (s : System) :
  open_since t1 s ->
  isLockedOut s = false ->
  clock s < t1 + OPEN_TIME_US ->
  timer_checks s = updateLCD s.
Proof.
  intros (Hdoor & Ht & Hle) Hlock Hearly.
  rewrite timer_checks_door_open by assumption.
  rewrite Ht, read_ms_before; [reflexivity | unfold OPEN_TIME_MS; lia |].
  unfold OPEN_TIME_US in Hearly. lia.
Qed.

Lemma timer_checks_open_late (t1 : Z) (s : System) :
  open_since t1 s ->
  isLockedOut s = false ->
  t1 + OPEN_TIME_US <= clock s < t1 + TIMER_RANGE_US ->
  timer_checks s = updateLCD (closeLock s).
Proof.
  intros (Hdoor & Ht & Hle) Hlock Hlate.
  rewrite timer_checks_door_open by assumption.
  rewrite Ht, read_ms_after; [reflexivity | unfold OPEN_TIME_MS; lia |].
  unfold OPEN_TIME_US in Hlate. lia.
Qed.

Lemma open_since_set_clock (t1 c : Z) (s : System) :
  open_since t1 s -> clock s <= c -> open_since t1 (set_clock c s).
Proof.
  intros (Hdoor & Ht & Hle) Hc.
  repeat split; cbn [isDoorOpen doorTimer clock set_clock]; try assumption.
  lia.
Qed.

(** An iteration on an open door whose time is not up: the keypad is
    scanned, the countdown is redrawn, and that is all. *)
Lemma loop_body_while_open (t1 : Z) (sw : Switches) (dt : N) (s : System) :
  open_since t1 s ->
  isLockedOut s = false ->
  clock s + Z.of_N dt < t1 + OPEN_TIME_US ->
  exists kp now,
    clock s + Z.of_N dt <= now
    /\ loop_body sw dt s
       = sleep_for 100
           (set_keypad kp
              (set_clock now
                 (updateLCD (set_clock (clock s + Z.of_N dt) s)))).
Proof.
  intros Hs Hlock Hearly.
  assert (Htc : timer_checks (set_clock (clock s + Z.of_N dt) s)
                = updateLCD (set_clock (clock s + Z.of_N dt) s)).
  { apply (timer_checks_open_early t1).
    - apply open_since_set_clock; [exact Hs | lia].
    - exact Hlock.
    - exact Hearly. }
  pose proof (clock_at_dispatch sw dt s) as Hc.
  assert (Hd : isDoorOpen (at_dispatch sw dt s) = true)
    by (rewrite at_dispatch_isDoorOpen, Htc, updateLCD_isDoorOpen;
        exact (proj1 Hs)).
  rewrite loop_body_dispatch, handle_key_door_open by exact Hd.
  destruct (at_dispatch_state sw dt s) as (kp & now & E).
  rewrite E in Hc |- *. rewrite Htc.
  exists kp, now. split; [exact Hc | reflexivity].
Qed.

Lemma step_while_open (t1 : Z) (e : Event) (s : System) :
  open_since t1 s ->
  isLockedOut s = false ->
  clock (step e s) < t1 + OPEN_TIME_US ->
  open_since t1 (step e s)
  /\ isLockedOut (step e s) = false
  /\ lockControl (step e s) = lockControl s
  /\ ledTicker (step e s) = ledTicker s
  /\ inputPassword (step e s) = inputPassword s
  /\ failedAttempts (step e s) = failedAttempts s
  /\ fastFlash (step e s) = fastFlash s.
Proof.
  intros Hs Hlock Hearly. destruct e as [sw dt|]; cbn [step] in *.
  - pose proof (clock_at_dispatch sw dt s) as Hc1.
    pose proof (clock_loop_body sw dt s) as Hc2.
    destruct (loop_body_while_open t1 sw dt s Hs Hlock) as (kp & now & Hn & E);
      [lia|].
    rewrite E. destruct Hs as (Hdoor & Ht & Hle).
    unfold open_since.
    cbn [sleep_for set_keypad set_clock isDoorOpen isLockedOut doorTimer
         lockControl ledTicker inputPassword failedAttempts fastFlash clock].
    rewrite updateLCD_isDoorOpen, updateLCD_doorTimer, updateLCD_isLockedOut,
      updateLCD_lockControl, updateLCD_ledTicker, updateLCD_inputPassword,
      updateLCD_failedAttempts, updateLCD_fastFlash.
    cbn [set_clock isDoorOpen isLockedOut doorTimer lockControl ledTicker
         inputPassword failedAttempts fastFlash].
    repeat split; try assumption. lia.
  - unfold ledFlashISR. destruct Hs as (Hdoor & Ht & Hle). rewrite Hdoor.
    repeat split; assumption.
Qed.

(** While the clock is short of ten seconds after the door opened, the
    door stays open whatever keys are pressed: the door flag and its
    timer, the relay, the ticker, the buffer, the counter and the
    fast-flash flag are as they were when the door opened. *)
Theorem door_stays_open (t1 : Z) (es : list Event) (s : System) :
  open_since t1 s ->
  isLockedOut s = false ->
  clock (run es s) < t1 + OPEN_TIME_US ->
  open_since t1 (run es s)
  /\ isLockedOut (run es s) = false
  /\ lockControl (run es s) = lockControl s
  /\ ledTicker (run es s) = ledTicker s
  /\ inputPassword (run es s) = inputPassword s
  /\ failedAttempts (run es s) = failedAttempts s
  /\ fastFlash (run es s) = fastFlash s.
Proof.
  revert s. induction es as [|e es IH]; intros s Hs Hlock Hearly.
  - cbn [run fold_left]. split; [exact Hs|]. now repeat split.
  - change (run (e :: es) s) with (run es (step e s)) in *.
    pose proof (clock_run es (step e s)) as Hmono.
    destruct (step_while_open t1 e s Hs Hlock)
      as (Hs' & Hl' & E1 & E2 & E3 & E4 & E5); [lia|].
    destruct (IH (step e s) Hs' Hl' Hearly)
      as (Hs'' & Hl'' & F1 & F2 & F3 & F4 & F5).
    split; [exact Hs''|]. split; [exact Hl''|].
    repeat split; congruence.
Qed.

Lemma door_stays_open_witness :
  isDoorOpen (run (press 0 0 ++ press 3 2)%list open_state) = true
  /\ inputPassword (run (press 0 0 ++ press 3 2)%list open_state) = "".
Proof.
  destruct (door_stays_open 3800250 (press 0 0 ++ press 3 2)%list open_state)
    as ((H1 & _) & _ & _ & _ & H5 & _).
  - repeat split; vm_compute; congruence.
  - reflexivity.
  - vm_compute. reflexivity.
  - split; [exact H1 | exact H5].
Defined.

(** The first iteration that starts ten seconds or more after the door
    opened closes it before it reads the keypad: at dispatch the door
    flag is cleared, the relay released, the ticker detached, the LED
    solid on and the door timer stopped.  If no key is read, the
    iteration ends in that state. *)
Theorem door_auto_closes (t1 : Z) (sw : Switches) (dt : N) (s : System) :
  open_since t1 s ->
  isLockedOut s = false ->
  t1 + OPEN_TIME_US <= clock s + Z.of_N dt < t1 + TIMER_RANGE_US ->
  let d := at_dispatch sw dt s in
  (isDoorOpen d = false
   /\ lockControl d = false
   /\ ledTicker d = None
   /\ led d = true
   /\ Mbed._running (doorTimer d) = false
   /\ inputPassword d = inputPassword s
   /\ failedAttempts d = failedAttempts s)
  /\ (delivered sw dt s = zero ->
      isDoorOpen (loop_body sw dt s) = false
      /\ lockControl (loop_body sw dt s) = false
      /\ ledTicker (loop_body sw dt s) = None
      /\ led (loop_body sw dt s) = true).
Proof.
  intros Hs Hlock Hlate. cbv zeta.
  assert (Htc : timer_checks (set_clock (clock s + Z.of_N dt) s)
                = updateLCD (closeLock (set_clock (clock s + Z.of_N dt) s))).
  { apply (timer_checks_open_late t1).
    - apply open_since_set_clock; [exact Hs | lia].
    - exact Hlock.
    - exact Hlate. }
  assert (Hd : isDoorOpen (at_dispatch sw dt s) = false
               /\ lockControl (at_dispatch sw dt s) = false
               /\ ledTicker (at_dispatch sw dt s) = None
               /\ led (at_dispatch sw dt s) = true
               /\ Mbed._running (doorTimer (at_dispatch sw dt s)) = false
               /\ inputPassword (at_dispatch sw dt s) = inputPassword s
               /\ failedAttempts (at_dispatch sw dt s) = failedAttempts s).
  { rewrite at_dispatch_isDoorOpen, at_dispatch_lockControl,
      at_dispatch_ledTicker, at_dispatch_led, at_dispatch_doorTimer,
      at_dispatch_inputPassword, at_dispatch_failedAttempts, Htc.
    rewrite updateLCD_isDoorOpen, updateLCD_lockControl, updateLCD_ledTicker,
      updateLCD_led, updateLCD_doorTimer, updateLCD_inputPassword,
      updateLCD_failedAttempts.
    unfold closeLock. cbv zeta.
    cbn [isDoorOpen lockControl ledTicker led doorTimer inputPassword
         failedAttempts set_isDoorOpen set_lockControl set_ledTicker set_led
         set_doorTimer set_clock Mbed.stop Mbed._running].
    now repeat split. }
  split; [exact Hd|].
  intros Hkey. rewrite loop_body_dispatch, Hkey.
  change (handle_key zero (at_dispatch sw dt s)) with (at_dispatch sw dt s).
  cbn [sleep_for isDoorOpen lockControl ledTicker led set_clock].
  destruct Hd as (D1 & D2 & D3 & D4 & _). now repeat split.
Qed.

Lemma door_auto_closes_witness :
  isDoorOpen open_state = true
  /\ isDoorOpen (loop_body no_key 10000000 open_state) = false
  /\ lockControl (loop_body no_key 10000000 open_state) = false.
Proof.
  split; [reflexivity|].
  destruct (door_auto_closes 3800250 no_key 10000000 open_state)
    as (_ & Hloop).
  - repeat split; vm_compute; congruence.
  - reflexivity.
  - vm_compute. split; [discriminate | reflexivity].
  - destruct Hloop as (H1 & H2 & _); [vm_compute; reflexivity|].
    split; [exact H1 | exact H2].
Defined.

(** A correct submission opens the window: the door timer runs from
    zero from the clock value at which the key was dispatched. *)
Lemma open_since_submit_right (s : System) :
  isDoorOpen s = false ->
  isLockedOut s = false ->
  inputPassword s = PASSWORD ->
  open_since (clock s) (handle_key "#" s).
Proof.
  intros Hdoor Hlock Hbuf.
  unfold open_since, handle_key, checkPassword, openLock.
  rewrite Hdoor, Hbuf, Hlock, String.eqb_refl.
  cbn [Ascii.eqb Bool.eqb andb negb zero PASSWORD String.length Nat.ltb
       Nat.leb].
  simp. rewrite timer_restarted. repeat split. lia.
Qed.

(* ================================================================== *)
(** * The end of a lockout *)
(* ================================================================== *)

Lemma timer_checks_lockout_over (t0 : Z) (s : System) :
  locked_since t0 s ->
  isDoorOpen s = false ->
  t0 + LOCKOUT_TIME_US <= clock s < t0 + TIMER_RANGE_US ->
  timer_checks s = resetSystem s.
Proof.
  intros (Hlock & Ht & Hle) Hdoor Hlate.
  destruct (resetSystem_fields s) as (_ & _ & R3).
  unfold timer_checks, check_lockout. cbv zeta.
  rewrite Hlock, Ht. cbn [andb].
  rewrite read_ms_after;
    [| unfold LOCKOUT_TIME_MS; lia | unfold LOCKOUT_TIME_US in Hlate; lia].
  rewrite check_autoclose_closed by (rewrite R3; exact Hdoor).
  apply refresh_countdown_closed. rewrite R3. exact Hdoor.
Qed.

(** The first iteration that starts thirty seconds or more after the
    lockout began ends it before it reads the keypad: at dispatch the
    controller is unlocked, the counter is 0, the lockout timer is
    stopped and the buffer is empty, whatever was typed during the
    lockout.  If no key is read the iteration ends in that state; a
    digit read in that very iteration starts the new buffer. *)
Theorem lockout_expires (t0 : Z) (sw : Switches) (dt : N) (s : System) :
  locked_since t0 s ->
  isDoorOpen s = false ->
  t0 + LOCKOUT_TIME_US <= clock s + Z.of_N dt < t0 + TIMER_RANGE_US ->
  let d := at_dispatch sw dt s in
  let key := delivered sw dt s in
  (isLockedOut d = false
   /\ isDoorOpen d = false
   /\ failedAttempts d = 0
   /\ inputPassword d = ""
   /\ Mbed._running (lockoutTimer d) = false)
  /\ (key = zero ->
      isLockedOut (loop_body sw dt s) = false
      /\ failedAttempts (loop_body sw dt s) = 0
      /\ inputPassword (loop_body sw dt s) = "")
  /\ (is_digit key = true ->
      isLockedOut (loop_body sw dt s) = false
      /\ inputPassword (loop_body sw dt s) = String key "").
Proof.
  intros Hs Hdoor Hlate. cbv zeta.
  assert (Htc : timer_checks (set_clock (clock s + Z.of_N dt) s)
                = resetSystem (set_clock (clock s + Z.of_N dt) s)).
  { apply (timer_checks_lockout_over t0).
    - destruct Hs as (Hl & Ht & Hle).
      repeat split; cbn [isLockedOut lockoutTimer clock set_clock];
        try assumption. lia.
    - exact Hdoor.
    - exact Hlate. }
  assert (Hd : isLockedOut (at_dispatch sw dt s) = false
               /\ isDoorOpen (at_dispatch sw dt s) = false
               /\ failedAttempts (at_dispatch sw dt s) = 0
               /\ inputPassword (at_dispatch sw dt s) = ""
               /\ Mbed._running (lockoutTimer (at_dispatch sw dt s)) = false).
  { rewrite at_dispatch_isLockedOut, at_dispatch_isDoorOpen,
      at_dispatch_failedAttempts, at_dispatch_inputPassword,
      at_dispatch_lockoutTimer, Htc.
    unfold resetSystem. cbv zeta.
    rewrite updateLCD_isLockedOut, updateLCD_isDoorOpen,
      updateLCD_failedAttempts, updateLCD_inputPassword,
      updateLCD_lockoutTimer.
    cbn [isLockedOut isDoorOpen failedAttempts inputPassword lockoutTimer
         set_isLockedOut set_failedAttempts set_inputPassword
         set_lockoutTimer set_clock Mbed.stop Mbed._running].
    now repeat split. }
  destruct Hd as (D1 & D2 & D3 & D4 & D5).
  rewrite loop_body_dispatch. clear Htc.
  generalize dependent (at_dispatch sw dt s). intros d D1 D2 D3 D4 D5.
  generalize (delivered sw dt s). intros key.
  split; [now repeat split|]. split.
  - intros ->.
    change (handle_key zero d) with d.
    cbn [sleep_for isLockedOut failedAttempts inputPassword set_clock].
    now repeat split.
  - intros Hdig.
    rewrite handle_key_digit;
      [| exact D2 | exact Hdig
       | rewrite D4; unfold MAX_PASSWORD_LENGTH; cbn; lia].
    cbn [sleep_for isLockedOut inputPassword set_clock].
    rewrite updateLCD_isLockedOut, updateLCD_inputPassword.
    cbn [isLockedOut inputPassword set_inputPassword].
    rewrite D1, D4. now split.
Qed.

Lemma lockout_expires_witness :
  isLockedOut locked_state = true
  /\ isLockedOut (loop_body no_key 30000000 locked_state) = false
  /\ failedAttempts (loop_body no_key 30000000 locked_state) = 0.
Proof.
  split; [reflexivity|].
  destruct (lockout_expires 10000410 no_key 30000000 locked_state)
    as (_ & Hloop & _).
  - repeat split; vm_compute; congruence.
  - reflexivity.
  - vm_compute. split; [discriminate | reflexivity].
  - destruct Hloop as (H1 & H2 & _); [vm_compute; reflexivity|].
    split; [exact H1 | exact H2].
Defined.

(* ================================================================== *)
(** * Relay, indicator, counter and buffer in every reachable state *)
(* ================================================================== *)

Ltac solve_wired :=
  branch; simp; norm_hyps;
  repeat split; intros; try assumption; try reflexivity; try congruence;
  auto.

Lemma wired_handle_key (key : ascii) (s : System) :
  wired s -> wired (handle_key key s).
Proof.
  unfold wired, handle_key, checkPassword, handleSpecialKeys, openLock.
  intros (H1 & H2 & H3). solve_wired.
Qed.

Lemma wired_check_lockout (s : System) : wired s -> wired (check_lockout s).
Proof.
  unfold wired, check_lockout, resetSystem.
  intros (H1 & H2 & H3). solve_wired.
Qed.

Lemma wired_check_autoclose (s : System) :
  wired s -> wired (check_autoclose s).
Proof.
  unfold wired, check_autoclose, closeLock.
  intros (H1 & H2 & H3). solve_wired.
Qed.

Lemma wired_refresh_countdown (s : System) :
  wired s -> wired (refresh_countdown s).
Proof.
  unfold wired, refresh_countdown.
  intros (H1 & H2 & H3). solve_wired.
Qed.

Lemma wired_step (e : Event) (s : System) : wired s -> wired (step e s).
Proof.
  intros H. destruct e as [sw dt|]; cbn [step].
  - rewrite loop_body_dispatch.
    apply (wired_handle_key _ (at_dispatch sw dt s)).
    destruct (at_dispatch_state sw dt s) as (kp & now & ->).
    unfold timer_checks. cbv zeta.
    apply (wired_refresh_countdown _
             (wired_check_autoclose _
                (wired_check_lockout
                   (set_clock (clock s + Z.of_N dt) s) H))).
  - unfold ledFlashISR. destruct (isDoorOpen s) eqn:Hd; [|exact H].
    unfold wired in *. destruct H as (H1 & H2 & H3).
    cbn [lockControl isDoorOpen led ledTicker set_led]. rewrite Hd in *.
    repeat split; auto. discriminate.
Qed.

Lemma wired_run (es : list Event) (s : System) : wired s -> wired (run es s).
Proof.
  revert s. induction es as [|e es IH]; intros s H; [assumption|].
  apply IH, wired_step, H.
Qed.

(** In every state reached from boot the relay is energised exactly
    when the door flag is set, the LED is solid on whenever the door is
    closed, and the ticker period is 250 ms whenever the door is open:
    the fast rate chosen with ['B'] never applies to an open door. *)
Theorem relay_and_led_follow_door (es : list Event) :
  lockControl (run es boot) = isDoorOpen (run es boot)
  /\ (isDoorOpen (run es boot) = false -> led (run es boot) = true)
  /\ (isDoorOpen (run es boot) = true -> ledTicker (run es boot) = Some 250).
Proof.
  apply (wired_run es boot).
  repeat split; vm_compute; congruence.
Qed.

Lemma relay_and_led_follow_door_witness :
  ledTicker (run right_code boot) = Some 250.
Proof.
  apply (proj2 (proj2 (relay_and_led_follow_door right_code))).
  reflexivity.
Defined.

(** In every state reached from boot the failed-attempt counter lies
    between 0 and [MAX_FAILED_ATTEMPTS], it is below the limit whenever
    the controller is not locked out, and while the door is open it is 0
    and the buffer is empty. *)
Theorem counter_within_bounds (es : list Event) :
  0 <= failedAttempts (run es boot) <= MAX_FAILED_ATTEMPTS
  /\ (isLockedOut (run es boot) = false ->
      failedAttempts (run es boot) < MAX_FAILED_ATTEMPTS)
  /\ (isDoorOpen (run es boot) = true ->
      failedAttempts (run es boot) = 0 /\ inputPassword (run es boot) = "").
Proof.
  destruct (Inv_run es boot Inv_boot) as (Hopen & _ & Hrange & Hlim).
  split; [exact Hrange|]. split; [exact Hlim|].
  intros Hd. destruct (Hopen Hd) as (_ & Hb & Hc & _). now split.
Qed.

Lemma counter_within_bounds_witness :
  failedAttempts (run right_code boot) = 0
  /\ inputPassword (run right_code boot) = "".
Proof.
  apply (proj2 (proj2 (counter_within_bounds right_code))).
  reflexivity.
Defined.

Lemma digits_only_append (b : string) (k : ascii) :
  digits_only (b ++ String k "") = digits_only b && is_digit k.
Proof.
  unfold digits_only. induction b as [|a b IH].
  - cbn [append list_ascii_of_string forallb]. now rewrite andb_true_r.
  - cbn [append list_ascii_of_string forallb]. rewrite IH.
    now rewrite andb_assoc.
Qed.

Ltac solve_digits :=
  branch; simp; rewrite ?digits_only_append;
  try assumption; try reflexivity;
  repeat match goal with
         | H : _ = true |- _ => rewrite H
         end;
  try reflexivity.

Lemma digits_only_handle_key (key : ascii) (s : System) :
  digits_only (inputPassword s) = true ->
  digits_only (inputPassword (handle_key key s)) = true.
Proof.
  unfold handle_key, checkPassword, handleSpecialKeys, openLock.
  intros H. solve_digits.
Qed.

Lemma digits_only_timer_checks (s : System) :
  digits_only (inputPassword s) = true ->
  digits_only (inputPassword (timer_checks s)) = true.
Proof.
  unfold timer_checks, check_lockout, check_autoclose, refresh_countdown,
    resetSystem, closeLock.
  intros H. solve_digits.
Qed.

Lemma digits_only_step (e : Event) (s : System) :
  digits_only (inputPassword s) = true ->
  digits_only (inputPassword (step e s)) = true.
Proof.
  intros H. destruct e as [sw dt|]; cbn [step].
  - rewrite loop_body_dispatch.
    apply (digits_only_handle_key _ (at_dispatch sw dt s)).
    rewrite at_dispatch_inputPassword.
    exact (digits_only_timer_checks (set_clock (clock s + Z.of_N dt) s) H).
  - unfold ledFlashISR. now destruct (isDoorOpen s).
Qed.

(** The buffer never holds anything but digits: from a state whose
    buffer is all digits, every run leads to a state whose buffer is all
    digits. *)
Theorem buffer_holds_digits (es : list Event) (s : System) :
  digits_only (inputPassword s) = true ->
  digits_only (inputPassword (run es s)) = true.
Proof.
  revert s. induction es as [|e es IH]; intros s H; [assumption|].
  apply IH, digits_only_step, H.
Qed.

Lemma buffer_holds_digits_witness :
  digits_only (inputPassword (run nine_nines boot)) = true.
Proof. apply (buffer_holds_digits nine_nines boot). reflexivity. Defined.

(* ================================================================== *)
(** * Typing a password *)
(* ================================================================== *)

Lemma run_snoc (es : list Event) (e : Event) (s : System) :
  run (es ++ [e])%list s = step e (run es s).
Proof. unfold run. now rewrite fold_left_app. Qed.

Lemma append_char_assoc (b : string) (k : ascii) (c : string) :
  (b ++ String k "") ++ c = b ++ String k c.
Proof. induction b as [|a b IH]; cbn; [reflexivity | now rewrite IH]. Qed.

Lemma append_empty_r (b : string) : b ++ "" = b.
Proof. induction b as [|a b IH]; cbn; [reflexivity | now rewrite IH]. Qed.

(** An iteration in [EnteringPassword] that reads no key leaves buffer,
    counter and mode as they are. *)
Lemma loop_body_entering_idle (sw : Switches) (dt : N) (s : System) :
  entering s ->
  delivered sw dt s = zero ->
  entering (loop_body sw dt s)
  /\ inputPassword (loop_body sw dt s) = inputPassword s
  /\ failedAttempts (loop_body sw dt s) = failedAttempts s.
Proof.
  intros Hent Hkey.
  destruct (entering_at_dispatch sw dt s Hent) as (Hd & Hfa & Hbuf).
  rewrite loop_body_dispatch, Hkey.
  change (handle_key zero (at_dispatch sw dt s)) with (at_dispatch sw dt s).
  unfold entering in *.
  cbn [sleep_for isDoorOpen isLockedOut inputPassword failedAttempts
       set_clock].
  now repeat split.
Qed.

(** An iteration in [EnteringPassword] that reads a digit while there is
    room appends it. *)
Lemma loop_body_entering_digit (sw : Switches) (dt : N) (s : System) :
  entering s ->
  is_digit (delivered sw dt s) = true ->
  (String.length (inputPassword s) < MAX_PASSWORD_LENGTH)%nat ->
  entering (loop_body sw dt s)
  /\ inputPassword (loop_body sw dt s)
     = inputPassword s ++ String (delivered sw dt s) ""
  /\ failedAttempts (loop_body sw dt s) = failedAttempts s.
Proof.
  intros Hent Hdig Hroom.
  destruct (entering_at_dispatch sw dt s Hent) as ((Hd & Hl) & Hfa & Hbuf).
  rewrite loop_body_dispatch.
  generalize dependent (at_dispatch sw dt s). intros d Hd Hl Hfa Hbuf.
  generalize dependent (delivered sw dt s). intros key Hdig.
  rewrite handle_key_digit; [| exact Hd | exact Hdig | now rewrite Hbuf].
  unfold entering.
  cbn [sleep_for isDoorOpen isLockedOut inputPassword failedAttempts
       set_clock].
  rewrite updateLCD_isDoorOpen, updateLCD_isLockedOut,
    updateLCD_inputPassword, updateLCD_failedAttempts.
  cbn [isDoorOpen isLockedOut inputPassword failedAttempts
       set_inputPassword].
  rewrite Hbuf. now repeat split.
Qed.

Lemma typing_run (es : list Event) :
  forall (s : System) (b : string),
    entering s ->
    typed es s = list_ascii_of_string b ->
    digits_only b = true ->
    (String.length (inputPassword s) + String.length b
     <= MAX_PASSWORD_LENGTH)%nat ->
    entering (run es s)
    /\ inputPassword (run es s) = inputPassword s ++ b
    /\ failedAttempts (run es s) = failedAttempts s.
Proof.
  induction es as [|e es IH]; intros s b Hent Htyped Hdig Hroom.
  - destruct b; [|discriminate Htyped].
    cbn [run fold_left]. now rewrite append_empty_r.
  - change (run (e :: es) s) with (run es (step e s)).
    destruct e as [sw dt|].
    + unfold typed in Htyped. cbn [keys_read app filter] in Htyped.
      fold (typed es (step (Iteration sw dt) s)) in Htyped.
      cbn [step] in *.
      destruct (Ascii.eqb (delivered sw dt s) zero) eqn:Hz;
        cbn [negb] in Htyped.
      * (* no key in this iteration *)
        apply Ascii.eqb_eq in Hz.
        destruct (loop_body_entering_idle sw dt s Hent Hz)
          as (Hent' & Hbuf' & Hfa').
        destruct (IH (loop_body sw dt s) b Hent' Htyped Hdig)
          as (G1 & G2 & G3); [rewrite Hbuf'; exact Hroom|].
        split; [exact G1|]. split; congruence.
      * (* the next character of [b] *)
        destruct b as [|k b]; [discriminate Htyped|].
        cbn [list_ascii_of_string] in Htyped.
        injection Htyped as Hk Hrest.
        unfold digits_only in Hdig. cbn [list_ascii_of_string forallb] in Hdig.
        apply andb_true_iff in Hdig. destruct Hdig as (Hdk & Hdb).
        cbn [String.length] in Hroom.
        destruct (loop_body_entering_digit sw dt s Hent)
          as (Hent' & Hbuf' & Hfa'); [rewrite Hk; exact Hdk | lia |].
        destruct (IH (loop_body sw dt s) b Hent' Hrest Hdb)
          as (G1 & G2 & G3).
        { rewrite Hbuf', length_append_char. lia. }
        split; [exact G1|]. split; [|congruence].
        rewrite G2, Hbuf', Hk. apply append_char_assoc.
    + (* the LED ticker *)
      unfold typed in Htyped. cbn [keys_read app] in Htyped.
      fold (typed es (step LedTick s)) in Htyped.
      cbn [step] in *.
      assert (E : ledFlashISR s = s)
        by (unfold ledFlashISR; now rewrite (proj1 Hent)).
      rewrite E in *. now apply IH.
Qed.

(** Whatever the timing and however long the keys are held: when the
    non-null keys read during a run in [EnteringPassword] spell a string
    of digits that still fits the buffer, the run ends in
    [EnteringPassword] with those digits appended to the buffer and the
    counter unchanged. *)
Theorem typing_fills_buffer (es : list Event) (s : System) (b : string) :
  entering s ->
  typed es s = list_ascii_of_string b ->
  digits_only b = true ->
  (String.length (inputPassword s) + String.length b
   <= MAX_PASSWORD_LENGTH)%nat ->
  entering (run es s)
  /\ inputPassword (run es s) = inputPassword s ++ b
  /\ failedAttempts (run es s) = failedAttempts s.
Proof. apply typing_run. Qed.

Lemma typing_fills_buffer_witness :
  inputPassword
    (run (press 0 0 ++ press 0 1 ++ press 0 2 ++ press 1 0)%list boot)
  = "1234".
Proof.
  destruct (typing_fills_buffer
              (press 0 0 ++ press 0 1 ++ press 0 2 ++ press 1 0)%list
              boot "1234") as (_ & H & _).
  - split; reflexivity.
  - vm_compute. reflexivity.
  - reflexivity.
  - vm_compute. lia.
  - exact H.
Defined.

(** Typing the credential into an empty buffer and then pressing ['#']
    opens the door, whatever the counter was (and whatever the timing):
    the door flag is set, the relay energised, the counter and the
    buffer cleared, and the door timer runs from zero. *)
Theorem typing_credential_opens_door
        (es : list Event) (sw : Switches) (dt : N) (s : System) :
  entering s ->
  inputPassword s = "" ->
  typed es s = list_ascii_of_string PASSWORD ->
  delivered sw dt (run es s) = "#"%char ->
  let s' := run (es ++ [Iteration sw dt])%list s in
  isDoorOpen s' = true
  /\ lockControl s' = true
  /\ failedAttempts s' = 0
  /\ inputPassword s' = ""
  /\ isLockedOut s' = false
  /\ exists t1, open_since t1 s'.
Proof.
  intros Hent Hempty Htyped Hkey. cbv zeta.
  destruct (typing_run es s PASSWORD Hent Htyped) as (Hent' & Hbuf & _);
    [reflexivity | rewrite Hempty; vm_compute; lia |].
  rewrite Hempty in Hbuf. cbn [append] in Hbuf.
  rewrite run_snoc. cbn [step]. rewrite loop_body_dispatch, Hkey.
  destruct (entering_at_dispatch sw dt (run es s) Hent')
    as ((Hd & Hl) & _ & Hb).
  rewrite Hbuf in Hb.
  destruct (handle_key_submit_right _ Hd Hl Hb) as (H1 & H2 & H3 & H4 & H5).
  pose proof (open_since_submit_right _ Hd Hl Hb) as Ho.
  cbn [sleep_for isDoorOpen lockControl failedAttempts inputPassword
       isLockedOut set_clock].
  repeat split; try assumption.
  exists (clock (at_dispatch sw dt (run es s))).
  destruct Ho as (O1 & O2 & O3).
  repeat split; cbn [sleep_for isDoorOpen doorTimer clock set_clock];
    try assumption. lia.
Qed.

Lemma typing_credential_opens_door_witness :
  isDoorOpen
    (run ((press 0 0 ++ press 0 1 ++ press 0 2 ++ press 1 0)
          ++ [Iteration (hold 3 2) 0])%list boot) = true
  /\ failedAttempts
       (run ((press 0 0 ++ press 0 1 ++ press 0 2 ++ press 1 0)
             ++ [Iteration (hold 3 2) 0])%list boot) = 0.
Proof.
  destruct (typing_credential_opens_door
              (press 0 0 ++ press 0 1 ++ press 0 2 ++ press 1 0)%list
              (hold 3 2) 0 boot) as (H1 & _ & H3 & _).
  - split; reflexivity.
  - reflexivity.
  - vm_compute. reflexivity.
  - vm_compute. reflexivity.
  - split; [exact H1 | exact H3].
Defined.

(* ================================================================== *)
(** * What the display shows *)
(* ================================================================== *)

Lemma lcd_print_mask (n : nat) (s : System) :
  lcd (Nat.iter n (lcd_printf "*") s)
  = (lcd s ++ repeat (Printf "*") n)%list.
Proof.
  induction n as [|n IH].
  - cbn [Nat.iter nat_rect repeat]. now rewrite app_nil_r.
  - change (Nat.iter (S n) (lcd_printf "*") s)
      with (lcd_printf "*" (Nat.iter n (lcd_printf "*") s)).
    cbn [lcd lcd_printf set_lcd]. rewrite IH.
    rewrite <- app_assoc. f_equal.
    change [Printf "*"] with (repeat (Printf "*") 1).
    rewrite <- repeat_app. now rewrite Nat.add_comm.
Qed.

(** The prompt [updateLCD] draws in [EnteringPassword]: one asterisk per
    character of the buffer. *)
Lemma updateLCD_prompt (s : System) :
  entering s ->
  lcd (updateLCD s)
  = (lcd s ++ [Cls; Printf "Enter Password:"; Locate 0 1]
       ++ repeat (Printf "*") (String.length (inputPassword s)))%list.
Proof.
  intros (Hdoor & Hlock).
  rewrite updateLCD_lcd_entering by assumption.
  rewrite lcd_print_mask.
  cbn [lcd lcd_cls lcd_printf lcd_locate set_lcd].
  now rewrite <- !app_assoc.
Qed.

(** The display masks the password: when a digit is accepted, what is
    sent to the display is the prompt followed by one asterisk per
    buffered character.  The text depends on how many digits are in the
    buffer, not on which. *)
Theorem display_masks_digits (key : ascii) (s : System) :
  entering s ->
  is_digit key = true ->
  (String.length (inputPassword s) < MAX_PASSWORD_LENGTH)%nat ->
  lcd (handle_key key s)
  = (lcd s ++ [Cls; Printf "Enter Password:"; Locate 0 1]
       ++ repeat (Printf "*") (S (String.length (inputPassword s))))%list.
Proof.
  intros Hent Hdig Hroom.
  rewrite handle_key_digit by (try assumption; exact (proj1 Hent)).
  rewrite updateLCD_prompt by exact Hent.
  cbn [lcd inputPassword set_inputPassword].
  now rewrite length_append_char.
Qed.

Lemma display_masks_digits_witness :
  lcd (handle_key "7" boot)
  = (lcd boot ++ [Cls; Printf "Enter Password:"; Locate 0 1; Printf "*"])%list.
Proof.
  apply (display_masks_digits "7"%char boot).
  - split; reflexivity.
  - reflexivity.
  - vm_compute. lia.
Defined.

(** A wrong submission that leaves the counter below the limit: the
    counter goes up by one, the buffer is emptied, the controller stays
    in [EnteringPassword], the call blocks for two seconds, and the
    display shows the attempt count and then the empty prompt. *)
Theorem wrong_submission_counts (s : System) :
  entering s ->
  inputPassword s <> "" ->
  inputPassword s <> PASSWORD ->
  failedAttempts s + 1 < MAX_FAILED_ATTEMPTS ->
  let s' := handle_key "#" s in
  entering s'
  /\ failedAttempts s' = failedAttempts s + 1
  /\ inputPassword s' = ""
  /\ clock s' = clock s + 2000000
  /\ lcd s'
     = (lcd s ++ [Cls; Printf "Wrong Password!"; Locate 0 1;
                  Printf ("Attempts: " ++ dec (failedAttempts s + 1)
                          ++ "/" ++ dec MAX_FAILED_ATTEMPTS);
                  Cls; Printf "Enter Password:"; Locate 0 1])%list.
Proof.
  intros (Hdoor & Hlock) Hne Hwrong Hbelow. cbv zeta.
  apply string_nonempty_length in Hne.
  apply String.eqb_neq in Hwrong.
  assert (Hge : (failedAttempts s + 1 >=? MAX_FAILED_ATTEMPTS) = false)
    by (rewrite Z.geb_leb; apply Z.leb_gt; exact Hbelow).
  assert (Hsucc : int_succ (failedAttempts s) = failedAttempts s + 1)
    by (apply int_succ_small; unfold MAX_FAILED_ATTEMPTS in Hbelow; lia).
  unfold handle_key, checkPassword. rewrite Hdoor, Hne, Hlock, Hwrong.
  cbn [Ascii.eqb Bool.eqb andb negb zero]. cbv zeta.
  cbn [failedAttempts set_failedAttempts lcd_cls lcd_printf lcd_locate
       set_lcd].
  rewrite Hsucc, Hge.
  unfold entering.
  rewrite updateLCD_prompt
    by (split; cbn [sleep_for isDoorOpen isLockedOut set_inputPassword
                    set_failedAttempts set_lcd set_clock]; assumption).
  simp. rewrite Hdoor, Hlock, <- !app_assoc.
  repeat split.
Qed.

Lemma wrong_submission_counts_witness :
  failedAttempts (handle_key "#" (handle_key "9" boot)) = 1
  /\ inputPassword (handle_key "#" (handle_key "9" boot)) = "".
Proof.
  destruct (wrong_submission_counts (handle_key "9" boot))
    as (_ & H2 & H3 & _).
  - split; reflexivity.
  - vm_compute. discriminate.
  - vm_compute. discriminate.
  - vm_compute. reflexivity.
  - split; [exact H2 | exact H3].
Defined.

(** The wrong submission that brings the counter to the limit starts
    the lockout in the middle of the call.  The lockout timer is
    restarted after the first two-second sleep and before the second, so
    when the call returns at least two of the thirty seconds have gone
    by; the call leaves the controller locked out with an empty buffer,
    and the last thing it puts on the display, after the wrong-password
    and the too-many-tries messages, is the lockout screen with its
    countdown. *)
Theorem lockout_entry_display (s : System) :
  entering s ->
  inputPassword s <> "" ->
  inputPassword s <> PASSWORD ->
  MAX_FAILED_ATTEMPTS <= failedAttempts s + 1 <= 2147483647 ->
  let s' := handle_key "#" s in
  isLockedOut s' = true
  /\ inputPassword s' = ""
  /\ failedAttempts s' = failedAttempts s + 1
  /\ (exists t0,
         locked_since t0 s'
         /\ clock s + 2000000 <= t0
         /\ t0 + 2000000 <= clock s')
  /\ (exists n,
         lcd s'
         = (lcd s ++ [Cls; Printf "Wrong Password!"; Locate 0 1;
                      Printf ("Attempts: " ++ dec (failedAttempts s + 1)
                              ++ "/" ++ dec MAX_FAILED_ATTEMPTS);
                      Cls; Printf "TOO MANY TRIES!"; Locate 0 1;
                      Printf "Locked 30s";
                      Cls; Printf "LOCKED OUT!"; Locate 0 1;
                      Printf ("Wait " ++ dec n ++ "s")])%list).
Proof.
  intros (Hdoor & Hlock) Hne Hwrong Hlimit. cbv zeta.
  apply string_nonempty_length in Hne.
  apply String.eqb_neq in Hwrong.
  assert (Hge : (failedAttempts s + 1 >=? MAX_FAILED_ATTEMPTS) = true)
    by (rewrite Z.geb_leb; apply Z.leb_le; apply Hlimit).
  assert (Hsucc : int_succ (failedAttempts s) = failedAttempts s + 1)
    by (apply int_succ_small; lia).
  unfold handle_key, checkPassword. rewrite Hdoor, Hne, Hlock, Hwrong.
  cbn [Ascii.eqb Bool.eqb andb negb zero]. cbv zeta.
  cbn [failedAttempts set_failedAttempts lcd_cls lcd_printf lcd_locate
       set_lcd].
  rewrite Hsucc, Hge.
  unfold updateLCD, locked_since. cbv zeta.
  cbn [isLockedOut isDoorOpen lockoutTimer clock lcd inputPassword
       failedAttempts sleep_for lcd_cls lcd_printf lcd_locate
       set_lcd set_clock set_inputPassword set_isLockedOut
       set_lockoutTimer set_failedAttempts].
  rewrite timer_restarted.
  rewrite <- !app_assoc.
  split; [reflexivity|]. split; [reflexivity|]. split; [reflexivity|].
  split.
  - exists (clock s + 1000 * 2000).
    split; [|lia]. split; [reflexivity|]. split; [reflexivity | lia].
  - eexists. reflexivity.
Qed.

Lemma lockout_entry_display_witness :
  let s := run (press 2 2 ++ press 3 2 ++ press 2 2 ++ press 3 2
                ++ press 2 2)%list boot in
  failedAttempts s = 2
  /\ isLockedOut (handle_key "#" s) = true
  /\ failedAttempts (handle_key "#" s) = failedAttempts s + 1.
Proof.
  cbv zeta. split; [vm_compute; reflexivity|].
  destruct (lockout_entry_display
              (run (press 2 2 ++ press 3 2 ++ press 2 2 ++ press 3 2
                    ++ press 2 2)%list boot))
    as (H1 & _ & H3 & _).
  - split; vm_compute; reflexivity.
  - vm_compute. discriminate.
  - vm_compute. discriminate.
  - vm_compute. split; discriminate.
  - split; [exact H1 | exact H3].
Defined.

(* ================================================================== *)
(** * The letter keys and the clear key *)
(* ================================================================== *)

(** ['A'] (system information) and ['D'] (lock status) only write to the
    display and wait: in any state, everything but the display log and
    the clock is left as it was. *)
Theorem status_keys_read_only (key : ascii) (s : System) :
  key = "A"%char \/ key = "D"%char ->
  control (handle_key key s) = control s.
Proof.
  intros [-> | ->]; unfold handle_key, handleSpecialKeys.
  - change (is_digit "A") with false.
    cbn [Ascii.eqb Bool.eqb andb orb negb zero].
    branch; simp; reflexivity.
  - change (is_digit "D") with false.
    cbn [Ascii.eqb Bool.eqb andb orb negb zero].
    branch; simp; reflexivity.
Qed.

Lemma status_keys_read_only_witness :
  control (handle_key "A" locked_state) = control locked_state
  /\ control (handle_key "D" locked_state) = control locked_state.
Proof.
  split.
  - apply (status_keys_read_only "A"%char locked_state). now left.
  - apply (status_keys_read_only "D"%char locked_state). now right.
Defined.

Lemma updateLCD_extends (s : System) :
  exists rest, lcd (updateLCD s) = (lcd s ++ rest)%list.
Proof.
  unfold updateLCD. cbv zeta. cbn [isLockedOut isDoorOpen lcd_cls set_lcd].
  destruct (isLockedOut s); [|destruct (isDoorOpen s)];
    rewrite ?lcd_print_mask;
    cbn [lcd lcd_cls lcd_printf lcd_locate set_lcd];
    rewrite <- ?app_assoc; eexists; reflexivity.
Qed.

(** ['D'] reports the door as locked or closed and never as open: keys
    are dispatched only while the door is closed, so the status screen
    it draws first is the lockout one, with a countdown, during a
    lockout and the "Ready" one otherwise. *)
Theorem status_key_never_reports_open (s : System) :
  isDoorOpen s = false ->
  exists n rest,
    lcd (handle_key "D" s)
    = (lcd s
         ++ (if isLockedOut s
             then [Cls; Printf "Door: LOCKED"; Locate 0 1;
                   Printf ("Unlock in " ++ dec n ++ "s")]
             else [Cls; Printf "Door: CLOSED"; Locate 0 1; Printf "Ready"])
         ++ rest)%list.
Proof.
  intros Hdoor. unfold handle_key, handleSpecialKeys. rewrite Hdoor.
  change (is_digit "D") with false.
  cbn [Ascii.eqb Bool.eqb andb orb negb zero]. cbv zeta.
  cbn [isDoorOpen isLockedOut lcd_cls set_lcd]. rewrite Hdoor.
  match goal with
  | |- context [updateLCD ?x] => destruct (updateLCD_extends x) as (rest & ->)
  end.
  eexists. exists rest.
  destruct (isLockedOut s);
    cbn [lcd clock lockoutTimer sleep_for lcd_cls lcd_printf lcd_locate
         set_lcd set_clock];
    rewrite <- !app_assoc; reflexivity.
Qed.

Lemma status_key_never_reports_open_witness :
  exists (n : Z) rest,
    lcd (handle_key "D" boot)
    = (lcd boot
         ++ [Cls; Printf "Door: CLOSED"; Locate 0 1; Printf "Ready"]
         ++ rest)%list.
Proof.
  apply (status_key_never_reports_open boot). reflexivity.
Defined.

(** ['B'] with the door closed flips the fast-flash flag and attaches
    the ticker at the matching period (100 ms when fast, 250 ms when
    not), after a two-second wait; nothing else in the state changes but
    the display, and a second ['B'] restores the flag. *)
Theorem flash_key_toggles (s : System) :
  isDoorOpen s = false ->
  let s1 := handle_key "B" s in
  fastFlash s1 = negb (fastFlash s)
  /\ ledTicker s1 = Some (if fastFlash s then 250 else 100)
  /\ control (set_ledTicker None (set_fastFlash false s1))
     = control (set_ledTicker None (set_fastFlash false s))
  /\ clock s1 = clock s + 2000000
  /\ fastFlash (handle_key "B" s1) = fastFlash s
  /\ ledTicker (handle_key "B" s1)
     = Some (if fastFlash s then 100 else 250).
Proof.
  intros Hdoor. cbv zeta.
  assert (Hkey : forall x, isDoorOpen x = false ->
            fastFlash (handle_key "B" x) = negb (fastFlash x)
            /\ ledTicker (handle_key "B" x)
               = Some (if fastFlash x then 250 else 100)
            /\ control (set_ledTicker None
                          (set_fastFlash false (handle_key "B" x)))
               = control (set_ledTicker None (set_fastFlash false x))
            /\ clock (handle_key "B" x) = clock x + 2000000
            /\ isDoorOpen (handle_key "B" x) = false).
  { intros x Hx. unfold handle_key, handleSpecialKeys. rewrite Hx.
    change (is_digit "B") with false.
    cbn [Ascii.eqb Bool.eqb andb orb negb zero]. cbv zeta.
    cbn [fastFlash set_fastFlash].
    destruct (fastFlash x) eqn:Hf; cbn [negb]; simp; rewrite ?Hf, ?Hx;
      repeat split; try lia;
      match goal with
      | |- context [updateLCD ?y] => rewrite (updateLCD_frame y)
      end; reflexivity. }
  destruct (Hkey s Hdoor) as (H1 & H2 & H3 & H4 & H5).
  destruct (Hkey _ H5) as (G1 & G2 & _).
  repeat split; try assumption.
  - rewrite G1, H1. apply negb_involutive.
  - rewrite G2, H1. now destruct (fastFlash s).
Qed.

Lemma flash_key_toggles_witness :
  fastFlash (handle_key "B" boot) = true
  /\ ledTicker (handle_key "B" boot) = Some 100
  /\ fastFlash (handle_key "B" (handle_key "B" boot)) = false.
Proof.
  destruct (flash_key_toggles boot) as (H1 & H2 & _ & _ & H5 & _).
  - reflexivity.
  - split; [exact H1 | split; [exact H2 | exact H5]].
Defined.

(** ['*'] with the door closed always leaves the buffer empty, whether
    or not there was anything to clear, and changes nothing else but the
    display and the clock. *)
Theorem clear_key_empties_buffer (s : System) :
  isDoorOpen s = false ->
  inputPassword (handle_key "*" s) = ""
  /\ control (handle_key "*" s) = control (set_inputPassword "" s).
Proof.
  intros Hdoor. unfold handle_key. rewrite Hdoor.
  cbn [Ascii.eqb Bool.eqb andb negb zero].
  destruct (inputPassword s) eqn:Hb.
  - cbn [String.length Nat.ltb Nat.leb]. simp. rewrite Hb.
    split; [reflexivity|].
    destruct s. cbn in Hb. subst. reflexivity.
  - cbn [String.length Nat.ltb Nat.leb]. simp. now split.
Qed.

Lemma clear_key_empties_buffer_witness :
  inputPassword full_state = "99999999"
  /\ inputPassword (handle_key "*" full_state) = "".
Proof.
  split; [reflexivity|].
  apply (clear_key_empties_buffer full_state). reflexivity.
Defined.

(* ================================================================== *)
(** * What the keypad can report *)
(* ================================================================== *)

(** The debounce timer and the clock have no say in what [getKey]
    reports: two calls on objects with the same key map and the same
    last-reported key, at any two times and with any two debounce
    timers, return the same symbol and record the same last key. *)
Theorem getKey_ignores_debounce_timer
        (sw : Switches) (now now' : Z) (kp kp' : Keypad.t) :
  same_geometry kp kp' ->
  Keypad._lastKey kp' = Keypad._lastKey kp ->
  fst (fst (Keypad.getKey sw now' kp')) = fst (fst (Keypad.getKey sw now kp))
  /\ Keypad._lastKey (snd (Keypad.getKey sw now' kp'))
     = Keypad._lastKey (snd (Keypad.getKey sw now kp)).
Proof.
  intros Hgeo Hlast.
  destruct (getKey_cases sw now kp) as (H1 & H2 & _).
  destruct (getKey_cases sw now' kp') as (G1 & G2 & _).
  rewrite (scanned_same_geometry sw kp kp' Hgeo), Hlast in G1.
  rewrite (scanned_same_geometry sw kp kp' Hgeo) in G2.
  split; congruence.
Qed.

Lemma getKey_ignores_debounce_timer_witness :
  fst (fst (Keypad.getKey (hold 1 1) 7000000
              (Keypad.set_debounceTimer Mbed.fresh (keypad boot))))
  = fst (fst (Keypad.getKey (hold 1 1) 3000000 (keypad boot))).
Proof.
  apply (getKey_ignores_debounce_timer
           (hold 1 1) 3000000 7000000 (keypad boot)
           (Keypad.set_debounceTimer Mbed.fresh (keypad boot))).
  - repeat split.
  - reflexivity.
Defined.

Lemma scan_cols_some (sw : Switches) (pins : list bool)
      (ks : list (list ascii)) (row : nat) (cols : list nat) (k : ascii) :
  Keypad.scan_cols sw pins ks row cols = Some k ->
  exists col, In col cols /\ k = Keypad.key_at ks row col.
Proof.
  induction cols as [|c cols IH]; cbn [Keypad.scan_cols]; [discriminate|].
  destruct (negb (Keypad.col_read sw pins c)).
  - intros [= <-]. exists c. split; [now left | reflexivity].
  - intros H. destruct (IH H) as (col & Hin & Hk).
    exists col. split; [now right | exact Hk].
Qed.

Lemma scan_rows_result (sw : Switches) (kp : Keypad.t) (rows : list nat)
      (now : Z) :
  (fst (Keypad.scan_rows sw kp rows now) = zero
   \/ exists row col,
       In row rows /\ (col < Z.to_nat (Keypad._cols kp))%nat
       /\ fst (Keypad.scan_rows sw kp rows now)
          = Keypad.key_at (Keypad._keys kp) row col)
  /\ now <= snd (Keypad.scan_rows sw kp rows now)
     <= now + 10 * Z.of_nat (List.length rows).
Proof.
  revert now. induction rows as [|r rows IH]; intros now.
  - cbn. split; [now left | lia].
  - cbn [Keypad.scan_rows List.length].
    destruct (Keypad.scan_cols _ _ _ _ _) as [k|] eqn:Hcols.
    + cbn [fst snd]. split; [|lia].
      destruct (scan_cols_some _ _ _ _ _ _ Hcols) as (col & Hin & ->).
      apply in_seq in Hin.
      right. exists r, col. split; [now left|]. split; [lia | reflexivity].
    + destruct (IH (now + 10)) as ([Hz | (row & col & Hin & Hc & Hk)] & Ht);
        (split; [|lia]).
      * now left.
      * right. exists row, col. split; [now right|]. now split.
Qed.

(** A scan costs ten microseconds per row it drives, so at most
    [10 * _rows], and what it returns is the null symbol or an entry of
    the key map within the geometry. *)
Lemma getKey_result (sw : Switches) (now : Z) (kp : Keypad.t) :
  (fst (fst (Keypad.getKey sw now kp)) = zero
   \/ exists row col,
       (row < Z.to_nat (Keypad._rows kp))%nat
       /\ (col < Z.to_nat (Keypad._cols kp))%nat
       /\ fst (fst (Keypad.getKey sw now kp))
          = Keypad.key_at (Keypad._keys kp) row col)
  /\ now <= snd (fst (Keypad.getKey sw now kp))
     <= now + 10 * Z.of_nat (Z.to_nat (Keypad._rows kp)).
Proof.
  unfold Keypad.getKey, Keypad.scanKeys.
  destruct (scan_rows_result sw kp (seq 0 (Z.to_nat (Keypad._rows kp))) now)
    as (Hk & Ht).
  rewrite length_seq in Ht.
  destruct (Keypad.scan_rows sw kp _ now) as [k now1].
  cbn [fst snd] in Hk, Ht.
  cbn [Keypad._lastKey Keypad.set_rowPins].
  assert (Hk' : k = zero
                \/ exists row col,
                    (row < Z.to_nat (Keypad._rows kp))%nat
                    /\ (col < Z.to_nat (Keypad._cols kp))%nat
                    /\ k = Keypad.key_at (Keypad._keys kp) row col).
  { destruct Hk as [Hz | (row & col & Hin & Hc & Hk)]; [now left|].
    apply in_seq in Hin. right. exists row, col.
    split; [lia|]. now split. }
  destruct (Ascii.eqb k zero); cbn [negb];
    [|destruct (Ascii.eqb k (Keypad._lastKey kp)); cbn [negb];
      [destruct (_ >? _)|]];
    cbn [fst snd]; (split; [|exact Ht]); try (now left); exact Hk'.
Qed.

(** The keypad part of the state keeps its key map and geometry. *)
Lemma keypad_handle_key (key : ascii) (s : System) :
  keypad (handle_key key s) = keypad s.
Proof.
  unfold handle_key, checkPassword, handleSpecialKeys, openLock.
  branch; simp; reflexivity.
Qed.

Lemma keypad_timer_checks (s : System) : keypad (timer_checks s) = keypad s.
Proof.
  unfold timer_checks, check_lockout, check_autoclose, refresh_countdown,
    resetSystem, closeLock.
  branch; simp; reflexivity.
Qed.

Lemma geometry_step (e : Event) (s : System) :
  same_geometry (keypad s) (keypad (step e s)).
Proof.
  destruct e as [sw dt|]; cbn [step].
  - rewrite loop_body_dispatch.
    cbn [sleep_for keypad set_clock]. rewrite keypad_handle_key.
    unfold at_dispatch. rewrite keypad_getKey_state. cbv zeta.
    cbn [snd keypad set_keypad].
    match goal with
    | |- same_geometry _ (snd (Keypad.getKey ?w ?n ?k)) =>
        destruct (getKey_cases w n k) as (_ & _ & Hg & _)
    end.
    refine (same_geometry_trans _ _ _ _ Hg).
    rewrite keypad_timer_checks. repeat split.
  - unfold ledFlashISR. destruct (isDoorOpen s); repeat split.
Qed.

Lemma geometry_run (es : list Event) (s : System) :
  same_geometry (keypad s) (keypad (run es s)).
Proof.
  revert s. induction es as [|e es IH]; intros s.
  - repeat split.
  - change (run (e :: es) s) with (run es (step e s)).
    exact (same_geometry_trans _ _ _ (geometry_step e s) (IH (step e s))).
Qed.

Lemma key_at_in_symbols (row col : nat) :
  (row < 4)%nat -> (col < 4)%nat ->
  In (Keypad.key_at keys row col) key_symbols.
Proof.
  intros Hr Hc.
  destruct row as [|[|[|[|row]]]]; try lia;
    destruct col as [|[|[|[|col]]]]; try lia;
    vm_compute; tauto.
Qed.

(** Whatever switches are closed, the key an iteration of the running
    program reads is the null symbol or one of the sixteen symbols of the
    key map: no other character ever reaches the dispatch. *)
Theorem delivered_is_keypad_symbol
        (es : list Event) (sw : Switches) (dt : N) :
  delivered sw dt (run es boot) = zero
  \/ In (delivered sw dt (run es boot)) key_symbols.
Proof.
  unfold delivered. rewrite keypad_getKey_state. cbv zeta. cbn [fst].
  rewrite keypad_timer_checks. cbn [keypad set_clock].
  destruct (geometry_run es boot) as (Hk & Hr & Hc).
  destruct (getKey_result sw
              (clock (timer_checks
                        (set_clock (clock (run es boot) + Z.of_N dt)
                                   (run es boot))))
              (keypad (run es boot)))
    as ([Hz | (row & col & Hrow & Hcol & Hkey)] & _); [now left|].
  right. rewrite Hkey, Hk.
  rewrite Hr in Hrow. rewrite Hc in Hcol.
  apply key_at_in_symbols; [exact Hrow | exact Hcol].
Qed.

(* ================================================================== *)
(** * How long a run takes *)
(* ================================================================== *)

(** A run never takes less than the slack and the 100 ms sleep of each
    of its iterations: [n] keypad reads take [n] tenths of a second at
    the least, so the keypad is polled ten times a second at most. *)
Theorem run_duration_at_least (es : list Event) (s : System) :
  clock s + least_duration es <= clock (run es s)
  /\ 100000 * Z.of_nat (List.length (keys_read es s)) <= least_duration es.
Proof.
  revert s. induction es as [|e es IH]; intros s.
  - cbn. lia.
  - change (run (e :: es) s) with (run es (step e s)).
    destruct (IH (step e s)) as (IH1 & IH2).
    destruct e as [sw dt|];
      cbn [least_duration keys_read app List.length step] in *.
    + pose proof (clock_at_dispatch sw dt s) as H1.
      assert (H2 : clock (at_dispatch sw dt s) + 100000
                   <= clock (loop_body sw dt s)).
      { rewrite loop_body_dispatch.
        pose proof (clock_handle_key (delivered sw dt s)
                                     (at_dispatch sw dt s)).
        cbn [sleep_for clock set_clock]. lia. }
      split; lia.
    + assert (H : clock (ledFlashISR s) = clock s)
        by (unfold ledFlashISR; now destruct (isDoorOpen s)).
      split; lia.
Qed.

(* ================================================================== *)
(** * test_keypad.cpp: the statistics index *)
(* ================================================================== *)

(** The statistics index of the key at a crossing of the 4x4 map is its
    row-major position [4 * row + col]: the string searched by
    [getKeyIndex] lists the key map row by row, and no symbol occurs in
    it twice. *)
Theorem getKeyIndex_row_major (row col : nat) :
  (row < 4)%nat -> (col < 4)%nat ->
  getKeyIndex (Keypad.key_at keys row col) = Z.of_nat (4 * row + col).
Proof.
  intros Hr Hc.
  destruct row as [|[|[|[|row]]]]; try lia;
    destruct col as [|[|[|[|col]]]]; try lia;
    reflexivity.
Qed.

Lemma getKeyIndex_row_major_witness :
  getKeyIndex (Keypad.key_at keys 2 3) = 11.
Proof.
  apply (getKeyIndex_row_major 2 3); lia.
Defined.

Lemma in_key_symbols (key : ascii) :
  In key key_symbols <-> existsb (Ascii.eqb key) key_symbols = true.
Proof.
  rewrite existsb_exists. split.
  - intros H. exists key. split; [exact H | apply Ascii.eqb_refl].
  - intros (x & Hin & Heq). apply Ascii.eqb_eq in Heq. now subst.
Qed.

(** [getKeyIndex] returns -1 exactly for the characters that are not in
    the key map, and an index of the sixteen-entry counter array for
    every one that is. *)
Theorem getKeyIndex_range (key : ascii) :
  (In key key_symbols /\ 0 <= getKeyIndex key < 16)
  \/ (~ In key key_symbols /\ getKeyIndex key = -1).
Proof.
  rewrite in_key_symbols.
  assert (H : (existsb (Ascii.eqb key) key_symbols = true
               /\ ((0 <=? getKeyIndex key)%Z && (getKeyIndex key <? 16)%Z = true))
              \/ (existsb (Ascii.eqb key) key_symbols = false
                  /\ getKeyIndex key = -1)).
  { destruct key as [[] [] [] [] [] [] [] []];
      vm_compute; (now left) || (now right). }
  destruct H as [(Hin & Hrng) | (Hout & Hidx)].
  - left. split; [exact Hin | lia].
  - right. split; [congruence | exact Hidx].
Qed.
